(** * Smart Home IoT backend: state reconciliation and automatic control

    A shallow embedding of [backend_main.py] (class [SmartHomeBackend] and
    the Flask handlers in front of it), of the three writers of
    [src/database.py] it calls, and of the thresholds of [config.py];
    then of the alert acknowledgement of [src/database.py], the threshold
    check of [src/sensors.py] and the actuator manager of
    [src/actuators.py].

    Modelling conventions.
    - Python values that reach the backend from JSON bodies are values of
      [pyval].  Numbers are rationals: every comparison the backend makes
      is against a constant that is an exact binary float, and Python
      compares int and float exactly, so [Q] agrees with the code on all
      finite numbers (NaN and the infinities are not modelled).
    - Strings are byte strings; [lower] is lower-casing of the ASCII
      letters, which is what [str.lower] does on ASCII text.
    - The backend object is a record that is threaded through a state and
      exception monad.  An exception does not undo the mutations made
      before it, exactly as in Python.
    - The SQLite file, the MQTT broker and the ThingSpeak endpoint are part
      of the record: tables are lists of rows (oldest first), the broker
      and the cloud are logs of what was sent to them.
    - Console output ([print]) is not modelled.
    - An f-string is kept unrendered ([fstring]). *)

From Stdlib Require Import Bool List String Ascii ZArith QArith Lia Lqa
  RelationClasses.
Import ListNotations.
Open Scope string_scope.
Open Scope list_scope.

Set Warnings "-register-all".

(** ** Python values *)

Inductive pyval : Type :=
| VNone
| VBool (b : bool)
| VNum (q : Q)
| VStr (s : string)
| VList (l : list pyval)
| VDict (d : list (string * pyval)).

Inductive exn : Type :=
| TypeError
| AttributeError.

Inductive result (A : Type) : Type :=
| Ok (a : A)
| Raise (e : exn).

Arguments Ok {A} a.
Arguments Raise {A} e.

(** An f-string with one hole: [prefix{arg}suffix]. *)
Record fstring : Type := FString {
  fs_prefix : string;
  fs_arg : pyval;
  fs_suffix : string
}.

Module Py.

Definition Qgtb (a b : Q) : bool := negb (Qle_bool a b).
Definition Qltb (a b : Q) : bool := negb (Qle_bool b a).
Definition Qgeb (a b : Q) : bool := Qle_bool b a.

(** The number a value compares as; [bool] is a subclass of [int]. *)
Definition as_number (v : pyval) : option Q :=
  match v with
  | VNum q => Some q
  | VBool true => Some 1%Q
  | VBool false => Some 0%Q
  | _ => None
  end.

(** [v > c] for a numeric constant [c]: [TypeError] on [None], [str],
    [list] and [dict]. *)
Definition gt (v : pyval) (c : Q) : result bool :=
  match as_number v with
  | Some q => Ok (Qgtb q c)
  | None => Raise TypeError
  end.

(** [v < c] for a numeric constant [c]. *)
Definition lt (v : pyval) (c : Q) : result bool :=
  match as_number v with
  | Some q => Ok (Qltb q c)
  | None => Raise TypeError
  end.

(** [v == s] for a string literal [s]; comparing with [==] never raises. *)
Definition eq_str (v : pyval) (s : string) : bool :=
  match v with
  | VStr t => String.eqb t s
  | _ => false
  end.

Definition lower_ascii (c : ascii) : ascii :=
  let n := nat_of_ascii c in
  if (65 <=? n)%nat && (n <=? 90)%nat then ascii_of_nat (n + 32) else c.

Fixpoint lower (s : string) : string :=
  match s with
  | EmptyString => EmptyString
  | String c r => String (lower_ascii c) (lower r)
  end.

(** [v.lower()]: only [str] has the method. *)
Definition lower_method (v : pyval) : result string :=
  match v with
  | VStr s => Ok (lower s)
  | _ => Raise AttributeError
  end.

(** Lookup in a dict kept as an association list. *)
Fixpoint assoc (k : string) (d : list (string * pyval)) : option pyval :=
  match d with
  | [] => None
  | (k', v) :: r => if String.eqb k k' then Some v else assoc k r
  end.

(** [v.get(k, default)]: only [dict] has the method. *)
Definition get (v : pyval) (k : string) (default : pyval) : result pyval :=
  match v with
  | VDict d =>
      match assoc k d with
      | Some x => Ok x
      | None => Ok default
      end
  | _ => Raise AttributeError
  end.

(** [d[k] = v] on a dict of strings kept in insertion order. *)
Fixpoint setitem (k v : string) (d : list (string * string))
  : list (string * string) :=
  match d with
  | [] => [(k, v)]
  | (k', v') :: r =>
      if String.eqb k k' then (k, v) :: r else (k', v') :: setitem k v r
  end.


(** [needle in haystack] on strings. *)
Fixpoint contains (needle haystack : string) : bool :=
  String.prefix needle haystack ||
  match haystack with
  | EmptyString => false
  | String _ r => contains needle r
  end.

(** Truth value of a value in [if v:] and [v and ...]. *)
Definition truthy (v : pyval) : bool :=
  match v with
  | VNone => false
  | VBool b => b
  | VNum q => negb (Qeq_bool q 0)
  | VStr s => negb (String.eqb s EmptyString)
  | VList l => match l with [] => false | _ => true end
  | VDict d => match d with [] => false | _ => true end
  end.

(** [v is not None]. *)
Definition is_not_none (v : pyval) : bool :=
  match v with VNone => false | _ => true end.

End Py.

(** ** config.py *)

Module config.

Definition temperature_high : Q := 28.
Definition humidity_high : Q := 70.
Definition light_threshold : Q := 300.
Definition temperature_critical : Q := 35.

Definition THINGSPEAK_API_KEY : string := "9CXKR5T6UUQPPB7T".

Definition temperature_low : Q := 18.
Definition humidity_critical : Q := 80.

(** [SYSTEM_CONFIG["auto_mode"]]. *)
Definition auto_mode : bool := true.

(** The entries of [MESSAGES] that the sensor manager uses. *)
Definition MESSAGES_temp_high : string := "⚠️ Temperatura alta detectada".
Definition MESSAGES_temp_critical : string := "🔥 ALERTA: Temperatura crítica".
Definition MESSAGES_humidity_high : string := "💧 Humedad alta detectada".

End config.

(** ** src/database.py *)

Record SensorReading : Type := {
  sr_temperature : pyval;
  sr_humidity : pyval;
  sr_light_level : pyval
}.

Record ActuatorEvent : Type := {
  actuator_type : string;
  action : string;
  value : pyval;
  auto_triggered : bool
}.

Record Alert : Type := {
  alert_type : string;
  message : fstring;
  alert_value : pyval;
  acknowledged : bool
}.

(** [writable] says whether an INSERT goes through; when it is [false]
    the statement raises [sqlite3.Error] (locked file, closed handle, a
    connection used from another thread). *)
Record DatabaseManager : Type := {
  writable : bool;
  sensor_readings : list SensorReading;
  actuator_events : list ActuatorEvent;
  alerts : list Alert
}.

Module Database.

Definition with_sensor_readings (db : DatabaseManager) l : DatabaseManager :=
  {| writable := writable db; sensor_readings := l;
     actuator_events := actuator_events db; alerts := alerts db |}.

Definition with_actuator_events (db : DatabaseManager) l : DatabaseManager :=
  {| writable := writable db; sensor_readings := sensor_readings db;
     actuator_events := l; alerts := alerts db |}.

Definition with_alerts (db : DatabaseManager) l : DatabaseManager :=
  {| writable := writable db; sensor_readings := sensor_readings db;
     actuator_events := actuator_events db; alerts := l |}.

(** Each writer returns the id of the new row, or [None] after catching
    [sqlite3.Error].  No row is ever deleted by the modelled code, so the
    id is the length of the table. *)
Definition save_sensor_reading (temperature humidity light_level : pyval)
    (db : DatabaseManager) : DatabaseManager * option nat :=
  if writable db then
    let rows := sensor_readings db ++
      [{| sr_temperature := temperature; sr_humidity := humidity;
          sr_light_level := light_level |}] in
    (with_sensor_readings db rows, Some (List.length rows))
  else (db, None).

Definition save_actuator_event (actuator_type0 action0 : string)
    (value0 : pyval) (auto_triggered0 : bool)
    (db : DatabaseManager) : DatabaseManager * option nat :=
  if writable db then
    let rows := actuator_events db ++
      [{| actuator_type := actuator_type0; action := action0;
          value := value0; auto_triggered := auto_triggered0 |}] in
    (with_actuator_events db rows, Some (List.length rows))
  else (db, None).

Definition save_alert (alert_type0 : string) (message0 : fstring)
    (value0 : pyval) (db : DatabaseManager) : DatabaseManager * option nat :=
  if writable db then
    let rows := alerts db ++
      [{| alert_type := alert_type0; message := message0;
          alert_value := value0; acknowledged := false |}] in
    (with_alerts db rows, Some (List.length rows))
  else (db, None).



End Database.

(** ** backend_main.py: the backend object *)

Record ActuatorStates : Type := {
  fan : bool;
  light : bool
}.

Record SensorData : Type := {
  temperature : pyval;
  humidity : pyval;
  light_level : pyval;
  timestamp : pyval
}.

(** One message handed to [mqtt_client.publish]: topic and the dict that
    [json.dumps] serialises. *)
Inductive field : Type :=
| Val (v : pyval)
| Text (f : fstring).

Definition Message : Type := (string * list (string * field))%type.

(** The query parameters of one ThingSpeak update request. *)
Record Telemetry : Type := {
  api_key : string;
  field1 : pyval;
  field2 : pyval;
  field3 : pyval;
  field4 : Z
}.

(** [broker] and [thingspeak] are the outside world: what has been
    published and requested so far, oldest first.  [thingspeak_up] says
    whether the endpoint answers 200. *)
Record SmartHomeBackend : Type := {
  database : DatabaseManager;
  mqtt_connected : bool;
  sensor_data : SensorData;
  actuator_states : ActuatorStates;
  last_thingspeak : Q;
  broker : list Message;
  thingspeak : list Telemetry;
  thingspeak_up : bool
}.

(** ** The state and exception monad of the methods *)

Definition M (A : Type) : Type := SmartHomeBackend -> SmartHomeBackend * result A.

Definition ret {A} (a : A) : M A := fun self => (self, Ok a).

Definition bind {A B} (m : M A) (k : A -> M B) : M B :=
  fun self =>
    match m self with
    | (self', Ok a) => k a self'
    | (self', Raise e) => (self', Raise e)
    end.

Definition lift {A} (r : result A) : M A := fun self => (self, r).

Definition gets {A} (f : SmartHomeBackend -> A) : M A :=
  fun self => (self, Ok (f self)).

Definition modify (f : SmartHomeBackend -> SmartHomeBackend) : M unit :=
  fun self => (f self, Ok tt).

(** [if c: body] with no [else]. *)
Definition when (c : bool) (body : M unit) : M unit :=
  if c then body else ret tt.

Declare Scope py_scope.
Delimit Scope py_scope with py.
Notation "x <- m ;; k" := (bind m (fun x => k))
  (at level 100, m at next level, right associativity) : py_scope.
Notation "m ;;; k" := (bind m (fun _ => k))
  (at level 100, right associativity) : py_scope.
Open Scope py_scope.

Definition exec {A} (m : M A) (self : SmartHomeBackend) : SmartHomeBackend :=
  fst (m self).

Definition outcome {A} (m : M A) (self : SmartHomeBackend) : result A :=
  snd (m self).

Module Self.

Definition set_database (db : DatabaseManager) (b : SmartHomeBackend) :=
  {| database := db; mqtt_connected := mqtt_connected b;
     sensor_data := sensor_data b; actuator_states := actuator_states b;
     last_thingspeak := last_thingspeak b; broker := broker b;
     thingspeak := thingspeak b; thingspeak_up := thingspeak_up b |}.

Definition set_sensor_data (d : SensorData) (b : SmartHomeBackend) :=
  {| database := database b; mqtt_connected := mqtt_connected b;
     sensor_data := d; actuator_states := actuator_states b;
     last_thingspeak := last_thingspeak b; broker := broker b;
     thingspeak := thingspeak b; thingspeak_up := thingspeak_up b |}.

Definition set_actuator_states (a : ActuatorStates) (b : SmartHomeBackend) :=
  {| database := database b; mqtt_connected := mqtt_connected b;
     sensor_data := sensor_data b; actuator_states := a;
     last_thingspeak := last_thingspeak b; broker := broker b;
     thingspeak := thingspeak b; thingspeak_up := thingspeak_up b |}.

Definition set_last_thingspeak (t : Q) (b : SmartHomeBackend) :=
  {| database := database b; mqtt_connected := mqtt_connected b;
     sensor_data := sensor_data b; actuator_states := actuator_states b;
     last_thingspeak := t; broker := broker b;
     thingspeak := thingspeak b; thingspeak_up := thingspeak_up b |}.

Definition set_broker (l : list Message) (b : SmartHomeBackend) :=
  {| database := database b; mqtt_connected := mqtt_connected b;
     sensor_data := sensor_data b; actuator_states := actuator_states b;
     last_thingspeak := last_thingspeak b; broker := l;
     thingspeak := thingspeak b; thingspeak_up := thingspeak_up b |}.

Definition set_thingspeak (l : list Telemetry) (b : SmartHomeBackend) :=
  {| database := database b; mqtt_connected := mqtt_connected b;
     sensor_data := sensor_data b; actuator_states := actuator_states b;
     last_thingspeak := last_thingspeak b; broker := broker b;
     thingspeak := l; thingspeak_up := thingspeak_up b |}.

(** [self.actuator_states["fan"] = v] and the same for ["light"]. *)
Definition set_fan (v : bool) : M unit :=
  modify (fun b => set_actuator_states
    {| fan := v; light := light (actuator_states b) |} b).

Definition set_light (v : bool) : M unit :=
  modify (fun b => set_actuator_states
    {| fan := fan (actuator_states b); light := v |} b).

(** [self.actuator_states["fan"]] and [self.actuator_states["light"]]. *)
Definition fan_state : M bool := gets (fun b => fan (actuator_states b)).
Definition light_state : M bool := gets (fun b => light (actuator_states b)).

(** A call of a [DatabaseManager] writer on [self.database]. *)
Definition db_call {A} (f : DatabaseManager -> DatabaseManager * A) : M A :=
  fun b => let (db, r) := f (database b) in (set_database db b, Ok r).

Definition set_mqtt_connected (c : bool) (b : SmartHomeBackend) :=
  {| database := database b; mqtt_connected := c;
     sensor_data := sensor_data b; actuator_states := actuator_states b;
     last_thingspeak := last_thingspeak b; broker := broker b;
     thingspeak := thingspeak b; thingspeak_up := thingspeak_up b |}.

End Self.

(** ** backend_main.py: the methods of [SmartHomeBackend] *)

(** [__init__].  The broker connection comes up later, in [connect_mqtt],
    so both values of [mqtt_connected] occur; the storage and the cloud are
    as the environment has them. *)
Definition init (db_writable connected cloud_up : bool) : SmartHomeBackend :=
  {| database := {| writable := db_writable; sensor_readings := [];
                    actuator_events := []; alerts := [] |};
     mqtt_connected := connected;
     sensor_data := {| temperature := VNone; humidity := VNone;
                       light_level := VNone; timestamp := VNone |};
     actuator_states := {| fan := false; light := false |};
     last_thingspeak := 0;
     broker := [];
     thingspeak := [];
     thingspeak_up := cloud_up |}.

Definition publish_mqtt (topic : string) (data : list (string * field)) : M bool :=
  connected <- gets mqtt_connected ;;
  if negb connected then ret false
  else
    modify (fun b => Self.set_broker (broker b ++ [(topic, data)]) b) ;;;
    ret true.

Definition publish_to_thingspeak : M bool :=
  if String.eqb config.THINGSPEAK_API_KEY "YOUR_WRITE_API_KEY" then ret false
  else
    sd <- gets sensor_data ;;
    on <- Self.fan_state ;;
    let payload :=
      {| api_key := config.THINGSPEAK_API_KEY;
         field1 := temperature sd;
         field2 := humidity sd;
         field3 := light_level sd;
         field4 := if on then 1%Z else 0%Z |} in
    modify (fun b => Self.set_thingspeak (thingspeak b ++ [payload]) b) ;;;
    gets thingspeak_up.

(** [now] is [datetime.now().isoformat()] and [current_time] is
    [time.time()], both read from the clock by the method. *)
Definition update_sensor_data (temperature humidity light : pyval)
    (now : string) (current_time : Q) : M unit :=
  modify (Self.set_sensor_data
    {| temperature := temperature; humidity := humidity;
       light_level := light; timestamp := VStr now |}) ;;;
  _ <- Self.db_call (Database.save_sensor_reading temperature humidity light) ;;
  connected <- gets mqtt_connected ;;
  when connected (
    _ <- publish_mqtt "smarthome/sensors/temperature"
           [("value", Val temperature); ("unit", Val (VStr "°C"))] ;;
    _ <- publish_mqtt "smarthome/sensors/humidity"
           [("value", Val humidity); ("unit", Val (VStr "%"))] ;;
    _ <- publish_mqtt "smarthome/sensors/light"
           [("value", Val light); ("unit", Val (VStr "lux"))] ;;
    ret tt) ;;;
  last <- gets last_thingspeak ;;
  when (Py.Qgeb (current_time - last) 20) (
    _ <- publish_to_thingspeak ;;
    modify (Self.set_last_thingspeak current_time)).

Definition execute_command (actuator action : pyval) (source : string) : M unit :=
  action <- lift (Py.lower_method action) ;;
  if Py.eq_str actuator "fan" then
    Self.set_fan (String.eqb action "on") ;;;
    _ <- Self.db_call (Database.save_actuator_event "fan" action VNone false) ;;
    connected <- gets mqtt_connected ;;
    when connected (
      _ <- publish_mqtt "smarthome/actuators/fan"
             [("state", Val (VStr action)); ("source", Val (VStr source))] ;;
      ret tt)
  else if Py.eq_str actuator "light" then
    Self.set_light (String.eqb action "on") ;;;
    _ <- Self.db_call (Database.save_actuator_event "light" action VNone false) ;;
    connected <- gets mqtt_connected ;;
    when connected (
      _ <- publish_mqtt "smarthome/actuators/light"
             [("state", Val (VStr action)); ("source", Val (VStr source))] ;;
      ret tt)
  else ret tt.

Definition apply_auto_control (temperature humidity light : pyval)
    : M (list (string * string)) :=
  let commands : list (string * string) := [] in
  (* fan, by temperature *)
  hot <- lift (Py.gt temperature config.temperature_high) ;;
  commands <-
    (if hot then
       on <- Self.fan_state ;;
       if negb on then
         Self.set_fan true ;;;
         let commands := Py.setitem "fan" "on" commands in
         _ <- Self.db_call (Database.save_actuator_event "fan" "on" VNone true) ;;
         connected <- gets mqtt_connected ;;
         when connected (
           _ <- publish_mqtt "smarthome/actuators/fan"
                  [("state", Val (VStr "on")); ("source", Val (VStr "auto"));
                   ("reason", Val (VStr "high_temp"))] ;;
           ret tt) ;;;
         critical <- lift (Py.gt temperature config.temperature_critical) ;;
         when critical (
           _ <- Self.db_call (Database.save_alert "temperature_critical"
                  (FString "Temperatura crítica: " temperature "°C")
                  temperature) ;;
           connected <- gets mqtt_connected ;;
           when connected (
             _ <- publish_mqtt "smarthome/alerts"
                    [("type", Val (VStr "critical"));
                     ("message",
                      Text (FString "Temperatura crítica: " temperature "°C"))] ;;
             ret tt)) ;;;
         ret commands
       else ret commands
     else
       on <- Self.fan_state ;;
       if on then
         Self.set_fan false ;;;
         let commands := Py.setitem "fan" "off" commands in
         _ <- Self.db_call (Database.save_actuator_event "fan" "off" VNone true) ;;
         connected <- gets mqtt_connected ;;
         when connected (
           _ <- publish_mqtt "smarthome/actuators/fan"
                  [("state", Val (VStr "off")); ("source", Val (VStr "auto"))] ;;
           ret tt) ;;;
         ret commands
       else ret commands) ;;
  (* light, by light level *)
  dark <- lift (Py.lt light config.light_threshold) ;;
  commands <-
    (if dark then
       on <- Self.light_state ;;
       if negb on then
         Self.set_light true ;;;
         let commands := Py.setitem "light" "on" commands in
         connected <- gets mqtt_connected ;;
         when connected (
           _ <- publish_mqtt "smarthome/actuators/light"
                  [("state", Val (VStr "on")); ("source", Val (VStr "auto"))] ;;
           ret tt) ;;;
         ret commands
       else ret commands
     else
       on <- Self.light_state ;;
       if on then
         Self.set_light false ;;;
         let commands := Py.setitem "light" "off" commands in
         connected <- gets mqtt_connected ;;
         when connected (
           _ <- publish_mqtt "smarthome/actuators/light"
                  [("state", Val (VStr "off")); ("source", Val (VStr "auto"))] ;;
           ret tt) ;;;
         ret commands
       else ret commands) ;;
  (* humidity alert *)
  humid <- lift (Py.gt humidity config.humidity_high) ;;
  when humid (
    _ <- Self.db_call (Database.save_alert "humidity_high"
           (FString "Humedad alta: " humidity "%") humidity) ;;
    connected <- gets mqtt_connected ;;
    when connected (
      _ <- publish_mqtt "smarthome/alerts"
             [("type", Val (VStr "warning"));
              ("message", Text (FString "Humedad alta: " humidity "%"))] ;;
      ret tt)) ;;;
  ret commands.

(** [try: body except Exception as e: print(...)]: the exception is caught
    and reported on the console; [Some e] records that it happened. *)
Definition try_except (body : M unit) : M (option exn) :=
  fun self =>
    match body self with
    | (self', Ok _) => (self', Ok None)
    | (self', Raise e) => (self', Ok (Some e))
    end.

Section OnMessage.

(** [json.loads] of the standard library: the parsed value, or [None]
    when it raises [JSONDecodeError]. *)
Variable json_loads : string -> option pyval.

(** [payload] is [msg.payload] decoded as UTF-8. *)
Definition on_mqtt_message (topic payload : string) : M (option exn) :=
  try_except (
    let command :=
      match json_loads payload with
      | Some v => v
      | None => VDict [("action", VStr payload)]
      end in
    if Py.contains "fan" topic then
      fallback <- lift (Py.get command "state" (VStr EmptyString)) ;;
      action <- lift (Py.get command "action" fallback) ;;
      execute_command (VStr "fan") action "MQTT"
    else if Py.contains "light" topic then
      fallback <- lift (Py.get command "state" (VStr EmptyString)) ;;
      action <- lift (Py.get command "action" fallback) ;;
      execute_command (VStr "light") action "MQTT"
    else ret tt).

End OnMessage.

(** ** backend_main.py: the Flask handlers *)

Inductive body : Type :=
| SensorSuccess (commands : list (string * string))
| ControlSuccess (actuator action : pyval)
| Error (e : exn).

Definition Response : Type := (body * nat)%type.

(** [POST /sensor]; [data] is [request.get_json()]. *)
Definition receive_sensor_data (data : pyval) (now : string) (current_time : Q)
    : SmartHomeBackend -> SmartHomeBackend * Response :=
  fun self =>
    match
      (temperature <- lift (Py.get data "temperature" VNone) ;;
       humidity <- lift (Py.get data "humidity" VNone) ;;
       light <- lift (Py.get data "light" VNone) ;;
       update_sensor_data temperature humidity light now current_time ;;;
       apply_auto_control temperature humidity light) self
    with
    | (self', Ok commands) => (self', (SensorSuccess commands, 200%nat))
    | (self', Raise e) => (self', (Error e, 500%nat))
    end.

(** [POST /control]. *)
Definition manual_control (data : pyval)
    : SmartHomeBackend -> SmartHomeBackend * Response :=
  fun self =>
    match
      (actuator <- lift (Py.get data "actuator" VNone) ;;
       action <- lift (Py.get data "action" VNone) ;;
       execute_command actuator action "HTTP" ;;;
       ret (actuator, action)) self
    with
    | (self', Ok (actuator, action)) =>
        (self', (ControlSuccess actuator action, 200%nat))
    | (self', Raise e) => (self', (Error e, 500%nat))
    end.

(** ** src/mqtt_client.py: the earlier copy of the evaluation

    The same class in its first form; its [apply_auto_control] shares the
    state and the store with the one above and publishes nothing. *)

Module mqtt_client.

Definition apply_auto_control (temperature humidity light : pyval)
    : M (list (string * string)) :=
  let commands : list (string * string) := [] in
  hot <- lift (Py.gt temperature config.temperature_high) ;;
  commands <-
    (if hot then
       on <- Self.fan_state ;;
       if negb on then
         Self.set_fan true ;;;
         let commands := Py.setitem "fan" "on" commands in
         _ <- Self.db_call (Database.save_actuator_event "fan" "on" VNone true) ;;
         critical <- lift (Py.gt temperature config.temperature_critical) ;;
         when critical (
           _ <- Self.db_call (Database.save_alert "temperature_critical"
                  (FString "Temperatura crítica: " temperature "°C")
                  temperature) ;;
           ret tt) ;;;
         ret commands
       else ret commands
     else
       on <- Self.fan_state ;;
       if on then
         Self.set_fan false ;;;
         let commands := Py.setitem "fan" "off" commands in
         _ <- Self.db_call (Database.save_actuator_event "fan" "off" VNone true) ;;
         ret commands
       else ret commands) ;;
  dark <- lift (Py.lt light config.light_threshold) ;;
  commands <-
    (if dark then
       on <- Self.light_state ;;
       if negb on then
         Self.set_light true ;;;
         ret (Py.setitem "light" "on" commands)
       else ret commands
     else
       on <- Self.light_state ;;
       if on then
         Self.set_light false ;;;
         ret (Py.setitem "light" "off" commands)
       else ret commands) ;;
  humid <- lift (Py.gt humidity config.humidity_high) ;;
  when humid (
    _ <- Self.db_call (Database.save_alert "humidity_high"
           (FString "Humedad alta: " humidity "%") humidity) ;;
    ret tt) ;;;
  ret commands.

End mqtt_client.

(** ** Vocabulary of the statements *)

(** The two actuators the backend keeps a state for. *)
Inductive Actuator : Type := Fan | Light.

Definition name (a : Actuator) : string :=
  match a with Fan => "fan" | Light => "light" end.

Definition state_of (a : Actuator) (b : SmartHomeBackend) : bool :=
  match a with
  | Fan => fan (actuator_states b)
  | Light => light (actuator_states b)
  end.



(** Rows of one actuator, alerts of one type, messages of one topic. *)
Definition events_of (a : string) (b : SmartHomeBackend) : list ActuatorEvent :=
  filter (fun e => String.eqb (actuator_type e) a) (actuator_events (database b)).

Definition alerts_of (t : string) (b : SmartHomeBackend) : list Alert :=
  filter (fun x => String.eqb (alert_type x) t) (alerts (database b)).

Definition published_on (topic : string) (b : SmartHomeBackend) : list Message :=
  filter (fun m => String.eqb (fst m) topic) (broker b).

(** The row an automatic transition writes. *)
Definition auto_event (a : Actuator) (on : bool) : ActuatorEvent :=
  {| actuator_type := name a; action := if on then "on" else "off";
     value := VNone; auto_triggered := true |}.

(** The alert row a humid reading leaves. *)
Definition humidity_alert (h : pyval) : Alert :=
  {| alert_type := "humidity_high";
     message := FString "Humedad alta: " h "%";
     alert_value := h; acknowledged := false |}.



(** Whether a call that took [b] to [b'] sent a ThingSpeak request. *)
Definition fired (b b' : SmartHomeBackend) : bool :=
  Nat.eqb (List.length (thingspeak b')) (S (List.length (thingspeak b))).

(** Successive [update_sensor_data] calls of one reading at the given
    clock values; the list says which of them fired. *)
Fixpoint telemetry_run (t h l : pyval) (now : string) (clock : list Q)
    (b : SmartHomeBackend) : list bool * SmartHomeBackend :=
  match clock with
  | [] => ([], b)
  | c :: rest =>
      let b' := exec (update_sensor_data t h l now c) b in
      let (flags, b'') := telemetry_run t h l now rest b' in
      (fired b b' :: flags, b'')
  end.

Arguments Py.Qgtb : simpl never.
Arguments Py.Qltb : simpl never.
Arguments Py.Qgeb : simpl never.
Arguments config.temperature_high : simpl never.
Arguments config.temperature_critical : simpl never.
Arguments config.humidity_high : simpl never.
Arguments config.light_threshold : simpl never.

(** ** backend_main.py: the remaining handlers and callbacks *)

(** [GET /command]. *)
Definition get_commands (b : SmartHomeBackend) : list (string * string) :=
  [("fan", if fan (actuator_states b) then "on" else "off");
   ("light", if light (actuator_states b) then "on" else "off")].



(** [on_mqtt_connect]: the new backend and the subscriptions it asks the
    client for; [rc] is the reason code of the broker. *)
Definition on_mqtt_connect (rc : Z) (b : SmartHomeBackend)
    : SmartHomeBackend * list string :=
  if (rc =? 0)%Z then (Self.set_mqtt_connected true b, ["smarthome/commands/#"])
  else (Self.set_mqtt_connected false b, []).

Definition on_mqtt_disconnect (rc : Z) (b : SmartHomeBackend) : SmartHomeBackend :=
  Self.set_mqtt_connected false b.

(** What reaches the backend while it runs: the two HTTP posts, a message
    of the broker, and the connection callbacks. *)
Inductive event : Type :=
| PostSensor (data : pyval) (now : string) (current_time : Q)
| PostControl (data : pyval)
| MqttMessage (topic payload : string)
| MqttConnected (rc : Z)
| MqttDisconnected (rc : Z).

Definition handle (json_loads : string -> option pyval) (e : event)
    (b : SmartHomeBackend) : SmartHomeBackend :=
  match e with
  | PostSensor data now current_time =>
      fst (receive_sensor_data data now current_time b)
  | PostControl data => fst (manual_control data b)
  | MqttMessage topic payload => fst (on_mqtt_message json_loads topic payload b)
  | MqttConnected rc => fst (on_mqtt_connect rc b)
  | MqttDisconnected rc => on_mqtt_disconnect rc b
  end.

Definition run (json_loads : string -> option pyval) (es : list event)
    (b : SmartHomeBackend) : SmartHomeBackend :=
  fold_left (fun b e => handle json_loads e b) es b.

(** The clock readings of a [telemetry_run] at which a request was sent. *)
Fixpoint fire_times (clock : list Q) (flags : list bool) : list Q :=
  match clock, flags with
  | c :: cs, true :: fs => c :: fire_times cs fs
  | _ :: cs, false :: fs => fire_times cs fs
  | _, _ => []
  end.

(** Each element is at least [gap] after the one before it, the first one
    at least [gap] after [start]. *)
Fixpoint spaced (gap start : Q) (l : list Q) : Prop :=
  match l with
  | [] => True
  | c :: rest => (gap <= c - start)%Q /\ spaced gap c rest
  end.

(** [l'] is [l] with rows added at its end. *)
Definition extends {A} (l l' : list A) : Prop := exists added, l' = l ++ added.

(** The history a backend keeps and sends: nothing in it is ever
    rewritten. *)
Definition history_extends (b b' : SmartHomeBackend) : Prop :=
  extends (sensor_readings (database b)) (sensor_readings (database b')) /\
  extends (actuator_events (database b)) (actuator_events (database b')) /\
  extends (alerts (database b)) (alerts (database b')) /\
  extends (broker b) (broker b') /\
  extends (thingspeak b) (thingspeak b').

(** The rows the backend can write. *)
Definition event_row_ok (e : ActuatorEvent) : Prop :=
  value e = VNone /\
  if auto_triggered e
  then actuator_type e = "fan" /\ (action e = "on" \/ action e = "off")
  else (actuator_type e = "fan" \/ actuator_type e = "light") /\
       Py.lower (action e) = action e.

Definition alert_row_ok (a : Alert) : Prop :=
  acknowledged a = false /\
  exists q, Py.as_number (alert_value a) = Some q /\
    ((alert_type a = "temperature_critical" /\ (config.temperature_critical < q)%Q) \/
     (alert_type a = "humidity_high" /\ (config.humidity_high < q)%Q)).

Definition topics : list string :=
  ["smarthome/sensors/temperature"; "smarthome/sensors/humidity";
   "smarthome/sensors/light"; "smarthome/actuators/fan";
   "smarthome/actuators/light"; "smarthome/alerts"].

(** [d.get(k)] on a dict: the entry, [None] when it is missing. *)
Definition dict_get (d : list (string * pyval)) (k : string) : pyval :=
  match Py.assoc k d with
  | Some v => v
  | None => VNone
  end.

(** The three blocks of [apply_auto_control], in the order the method runs
    them (see [apply_auto_control_blocks]). *)
Definition fan_block (temperature : pyval) (commands : list (string * string))
    : M (list (string * string)) :=
  hot <- lift (Py.gt temperature config.temperature_high) ;;
  if hot then
    on <- Self.fan_state ;;
    if negb on then
      Self.set_fan true ;;;
      let commands := Py.setitem "fan" "on" commands in
      _ <- Self.db_call (Database.save_actuator_event "fan" "on" VNone true) ;;
      connected <- gets mqtt_connected ;;
      when connected (
        _ <- publish_mqtt "smarthome/actuators/fan"
               [("state", Val (VStr "on")); ("source", Val (VStr "auto"));
                ("reason", Val (VStr "high_temp"))] ;;
        ret tt) ;;;
      critical <- lift (Py.gt temperature config.temperature_critical) ;;
      when critical (
        _ <- Self.db_call (Database.save_alert "temperature_critical"
               (FString "Temperatura crítica: " temperature "°C")
               temperature) ;;
        connected <- gets mqtt_connected ;;
        when connected (
          _ <- publish_mqtt "smarthome/alerts"
                 [("type", Val (VStr "critical"));
                  ("message",
                   Text (FString "Temperatura crítica: " temperature "°C"))] ;;
          ret tt)) ;;;
      ret commands
    else ret commands
  else
    on <- Self.fan_state ;;
    if on then
      Self.set_fan false ;;;
      let commands := Py.setitem "fan" "off" commands in
      _ <- Self.db_call (Database.save_actuator_event "fan" "off" VNone true) ;;
      connected <- gets mqtt_connected ;;
      when connected (
        _ <- publish_mqtt "smarthome/actuators/fan"
               [("state", Val (VStr "off")); ("source", Val (VStr "auto"))] ;;
        ret tt) ;;;
      ret commands
    else ret commands.

Definition light_block (light : pyval) (commands : list (string * string))
    : M (list (string * string)) :=
  dark <- lift (Py.lt light config.light_threshold) ;;
  if dark then
    on <- Self.light_state ;;
    if negb on then
      Self.set_light true ;;;
      let commands := Py.setitem "light" "on" commands in
      connected <- gets mqtt_connected ;;
      when connected (
        _ <- publish_mqtt "smarthome/actuators/light"
               [("state", Val (VStr "on")); ("source", Val (VStr "auto"))] ;;
        ret tt) ;;;
      ret commands
    else ret commands
  else
    on <- Self.light_state ;;
    if on then
      Self.set_light false ;;;
      let commands := Py.setitem "light" "off" commands in
      connected <- gets mqtt_connected ;;
      when connected (
        _ <- publish_mqtt "smarthome/actuators/light"
               [("state", Val (VStr "off")); ("source", Val (VStr "auto"))] ;;
        ret tt) ;;;
      ret commands
    else ret commands.

Definition humidity_block (humidity : pyval) : M unit :=
  humid <- lift (Py.gt humidity config.humidity_high) ;;
  when humid (
    _ <- Self.db_call (Database.save_alert "humidity_high"
           (FString "Humedad alta: " humidity "%") humidity) ;;
    connected <- gets mqtt_connected ;;
    when connected (
      _ <- publish_mqtt "smarthome/alerts"
             [("type", Val (VStr "warning"));
              ("message", Text (FString "Humedad alta: " humidity "%"))] ;;
      ret tt)).

(** A relation between the backend before and after a computation,
    whatever the computation returns or raises. *)
Definition relates {A} (R : SmartHomeBackend -> SmartHomeBackend -> Prop)
    (m : M A) : Prop :=
  forall b, R b (fst (m b)).


(** [P] holds after whenever it held before. *)
Definition preserves (P : SmartHomeBackend -> Prop) (b b' : SmartHomeBackend)
    : Prop :=
  P b -> P b'.

(** No event of the list is a successful connection. *)
Definition no_connect (es : list event) : Prop :=
  Forall (fun e => match e with MqttConnected rc => rc <> 0%Z | _ => True end) es.

Definition offline (published : list Message) (b : SmartHomeBackend) : Prop :=
  mqtt_connected b = false /\ broker b = published.

Definition event_rows_ok (b : SmartHomeBackend) : Prop :=
  Forall event_row_ok (actuator_events (database b)).

Definition alert_rows_ok (b : SmartHomeBackend) : Prop :=
  Forall alert_row_ok (alerts (database b)).

Definition topics_ok (b : SmartHomeBackend) : Prop :=
  Forall (fun m : Message => In (fst m) topics) (broker b).

(** What the evaluation has no business with. *)
Definition same_outside_actuation (b b' : SmartHomeBackend) : Prop :=
  sensor_data b' = sensor_data b /\
  thingspeak b' = thingspeak b /\
  last_thingspeak b' = last_thingspeak b /\
  thingspeak_up b' = thingspeak_up b /\
  mqtt_connected b' = mqtt_connected b /\
  writable (database b') = writable (database b) /\
  sensor_readings (database b') = sensor_readings (database b).

(** ** src/sensors.py *)

Module sensors.

(** One entry of the list [check_thresholds] returns. *)
Record ThresholdAlert : Type := {
  ta_type : string;
  ta_value : pyval;
  ta_message : string
}.

Definition rbind {A B} (r : result A) (k : A -> result B) : result B :=
  match r with
  | Ok a => k a
  | Raise e => Raise e
  end.

(** [SensorManager.check_thresholds]. *)
Definition check_thresholds (readings : pyval) : result (list ThresholdAlert) :=
  let alerts : list ThresholdAlert := [] in
  rbind (Py.get readings "temperature" VNone) (fun temp =>
  rbind (Py.get readings "humidity" VNone) (fun humidity =>
  rbind (Py.get readings "light_level" VNone) (fun light =>
  rbind
    (if Py.truthy temp then
       rbind (Py.gt temp config.temperature_critical) (fun critical =>
       if critical then
         Ok (alerts ++ [{| ta_type := "temperature_critical"; ta_value := temp;
                           ta_message := config.MESSAGES_temp_critical |}])
       else
         rbind (Py.gt temp config.temperature_high) (fun high =>
         if high then
           Ok (alerts ++ [{| ta_type := "temperature_high"; ta_value := temp;
                             ta_message := config.MESSAGES_temp_high |}])
         else
           rbind (Py.lt temp config.temperature_low) (fun low =>
           if low then
             Ok (alerts ++ [{| ta_type := "temperature_low"; ta_value := temp;
                               ta_message := "⚠️ Temperatura baja detectada" |}])
           else Ok alerts)))
     else Ok alerts) (fun alerts =>
  rbind
    (if Py.truthy humidity then
       rbind (Py.gt humidity config.humidity_critical) (fun critical =>
       if critical then
         Ok (alerts ++ [{| ta_type := "humidity_critical"; ta_value := humidity;
                           ta_message := "💧 ALERTA: Humedad crítica" |}])
       else
         rbind (Py.gt humidity config.humidity_high) (fun high =>
         if high then
           Ok (alerts ++ [{| ta_type := "humidity_high"; ta_value := humidity;
                             ta_message := config.MESSAGES_humidity_high |}])
         else Ok alerts))
     else Ok alerts) (fun alerts =>
  if Py.is_not_none light then
    rbind (Py.lt light config.light_threshold) (fun low =>
    if low then
      Ok (alerts ++ [{| ta_type := "low_light"; ta_value := light;
                        ta_message := "🌙 Nivel de luz bajo" |}])
    else Ok alerts)
  else Ok alerts))))).

(** [LDRSensor.is_dark]; [current_level] is what [get_light_level] reads
    from the sensor, [None] when the reading failed. *)
Definition is_dark (threshold : option Q) (current_level : option Q) : bool :=
  let threshold :=
    match threshold with
    | Some t => if Qeq_bool t 0 then config.light_threshold else t
    | None => config.light_threshold
    end in
  match current_level with
  | Some level => if Qeq_bool level 0 then false else Py.Qltb level threshold
  | None => false
  end.

End sensors.

(** ** src/actuators.py

    The LED, the relay and the buzzer are kept as the state the classes
    hold: the three colour flags, the relay flag, and the beeps sounded so
    far (their durations, oldest first).  With real GPIO the pins follow
    these flags.  The display is not modelled; none of the methods below
    touches it. *)

Module actuators.

Record LEDController : Type := {
  state_red : bool;
  state_green : bool;
  state_blue : bool
}.

Record ActuatorManager : Type := {
  led : LEDController;
  relay : bool;
  buzzer : list Q
}.

(** [LEDController._get_color_name]. *)
Definition _get_color_name (l : LEDController) : string :=
  let r := state_red l in
  let g := state_green l in
  let b := state_blue l in
  if r && g && b then "Blanco"
  else if r && g then "Amarillo"
  else if r && b then "Magenta"
  else if g && b then "Cian"
  else if r then "Rojo"
  else if g then "Verde"
  else if b then "Azul"
  else "Apagado".

(** [LEDController.set_color] and the named colours; each returns the name
    of the colour it leaves. *)
Definition set_color (red green blue : bool) (l : LEDController)
    : LEDController * string :=
  let l' := {| state_red := red; state_green := green; state_blue := blue |} in
  (l', _get_color_name l').

Definition led_off := set_color false false false.
Definition led_white := set_color true true true.
Definition led_red := set_color true false false.
Definition led_green := set_color false true false.
Definition led_blue := set_color false false true.
Definition led_yellow := set_color true true false.

(** [RelayController.on], [off] and [toggle]: the new flag, which is also
    the value returned. *)
Definition relay_on (state : bool) : bool := true.
Definition relay_off (state : bool) : bool := false.
Definition relay_toggle (state : bool) : bool :=
  if state then relay_off state else relay_on state.

(** [BuzzerController.beep] and [alert]. *)
Definition beep (duration : Q) (log : list Q) : list Q := log ++ [duration].

Fixpoint alert (times : nat) (duration : Q) (log : list Q) : list Q :=
  match times with
  | O => log
  | S n => alert n duration (beep duration log)
  end.

(** The state and exception monad of the manager. *)
Definition A (T : Type) : Type := ActuatorManager -> ActuatorManager * result T.

Definition aret {T} (x : T) : A T := fun m => (m, Ok x).

Definition abind {T U} (c : A T) (k : T -> A U) : A U :=
  fun m =>
    match c m with
    | (m', Ok x) => k x m'
    | (m', Raise e) => (m', Raise e)
    end.

Definition alift {T} (r : result T) : A T := fun m => (m, r).

Definition with_led (f : LEDController -> LEDController * string) : A unit :=
  fun m => ({| led := fst (f (led m)); relay := relay m; buzzer := buzzer m |},
            Ok tt).

Definition with_relay (f : bool -> bool) : A unit :=
  fun m => ({| led := led m; relay := f (relay m); buzzer := buzzer m |}, Ok tt).

Definition with_buzzer (f : list Q -> list Q) : A unit :=
  fun m => ({| led := led m; relay := relay m; buzzer := f (buzzer m) |}, Ok tt).

Definition relay_state : A bool := fun m => (m, Ok (relay m)).

Declare Scope act_scope.
Notation "x <- c ;; k" := (abind c (fun x => k))
  (at level 100, c at next level, right associativity) : act_scope.
Notation "c ;;; k" := (abind c (fun _ => k))
  (at level 100, right associativity) : act_scope.
Local Open Scope act_scope.

(** [ActuatorManager.auto_control]. *)
Definition auto_control (sensor_data0 : pyval) : A (list string) :=
  let actions : list string := [] in
  temp <- alift (Py.get sensor_data0 "temperature" VNone) ;;
  light0 <- alift (Py.get sensor_data0 "light_level" VNone) ;;
  actions <-
    (if Py.truthy temp && config.auto_mode then
       hot <- alift (Py.gt temp config.temperature_high) ;;
       if hot then
         on <- relay_state ;;
         if negb on then
           with_relay relay_on ;;;
           with_led led_red ;;;
           let actions := actions ++ ["fan_on"] in
           critical <- alift (Py.gt temp config.temperature_critical) ;;
           (if critical then with_buzzer (alert 3 (2 # 10)) else aret tt) ;;;
           aret actions
         else aret actions
       else
         on <- relay_state ;;
         if on then
           with_relay relay_off ;;;
           with_led led_green ;;;
           aret (actions ++ ["fan_off"])
         else aret actions
     else aret actions) ;;
  if Py.is_not_none light0 && config.auto_mode then
    dark <- alift (Py.lt light0 config.light_threshold) ;;
    if dark then
      with_led led_white ;;;
      aret (actions ++ ["light_on"])
    else
      bright <- alift (Py.gt light0 (config.light_threshold + 100)) ;;
      if bright then
        on <- relay_state ;;
        if negb on then
          with_led led_off ;;;
          aret (actions ++ ["light_off"])
        else aret actions
      else aret actions
  else aret actions.

(** [command[key]] raises [KeyError] when the key is missing. *)
Inductive KeyError : Type := key_error (key : string).

(** [ActuatorManager.manual_control]; [command] is a dict. *)
Definition manual_control (command : list (string * pyval)) (m : ActuatorManager)
    : ActuatorManager * (KeyError + option string) :=
  match Py.assoc "actuator" command with
  | None => (m, inl (key_error "actuator"))
  | Some actuator =>
      if Py.eq_str actuator "fan" then
        match Py.assoc "action" command with
        | None => (m, inl (key_error "action"))
        | Some action0 =>
            if Py.eq_str action0 "on" then
              ({| led := led m; relay := relay_on (relay m); buzzer := buzzer m |},
               inr (Some "fan_on"))
            else if Py.eq_str action0 "off" then
              ({| led := led m; relay := relay_off (relay m); buzzer := buzzer m |},
               inr (Some "fan_off"))
            else if Py.eq_str action0 "toggle" then
              let state := relay_toggle (relay m) in
              ({| led := led m; relay := state; buzzer := buzzer m |},
               inr (Some (if state then "fan_on" else "fan_off")))
            else (m, inr None)
        end
      else if Py.eq_str actuator "light" then
        match Py.assoc "action" command with
        | None => (m, inl (key_error "action"))
        | Some action0 =>
            if Py.eq_str action0 "on" then
              ({| led := fst (led_white (led m)); relay := relay m;
                  buzzer := buzzer m |}, inr (Some "light_on"))
            else if Py.eq_str action0 "off" then
              ({| led := fst (led_off (led m)); relay := relay m;
                  buzzer := buzzer m |}, inr (Some "light_off"))
            else (m, inr None)
        end
      else if Py.eq_str actuator "buzzer" then
        match Py.assoc "action" command with
        | None => (m, inl (key_error "action"))
        | Some action0 =>
            if Py.eq_str action0 "beep" then
              ({| led := led m; relay := relay m;
                  buzzer := beep (1 # 10) (buzzer m) |}, inr (Some "buzzer_beep"))
            else if Py.eq_str action0 "alert" then
              ({| led := led m; relay := relay m;
                  buzzer := alert 3 (2 # 10) (buzzer m) |},
               inr (Some "buzzer_alert"))
            else (m, inr None)
        end
      else (m, inr None)
  end.

End actuators.

(** ** Proof automation *)

Ltac unfold_backend :=
  unfold exec, outcome, receive_sensor_data, manual_control, on_mqtt_message,
    try_except, execute_command, apply_auto_control, update_sensor_data,
    publish_to_thingspeak, publish_mqtt, Self.fan_state,
    Self.light_state, Self.set_fan, Self.set_light, Self.db_call,
    Database.save_actuator_event, Database.save_alert,
    Database.save_sensor_reading, when, bind, ret, lift, gets, modify in *.

Ltac destruct_backend b :=
  let db := fresh "db" in
  let st := fresh "st" in
  destruct b as [db ? ? st ? ? ? ?]; destruct db as [? ? ? ?];
  destruct st as [? ?].

(** Case analysis on every test the unfolded code makes. *)
Ltac case_ifs :=
  repeat match goal with
         | |- context [if ?c then _ else _] => destruct c eqn:?; cbn
         | |- context [match Py.as_number ?v with _ => _ end] =>
             destruct (Py.as_number v) eqn:?; cbn
         end.

(** ** The model on the scenarios of the specification *)

(** A fresh backend receives 30 degrees, 50 percent, 500 lux: the fan is
    commanded ON, its event is flagged automatic, the light is left alone
    and no alert is written. *)
Example scenario_warm_reading :
  let data := VDict [("temperature", VNum 30); ("humidity", VNum 50);
                     ("light", VNum 500)] in
  let r := receive_sensor_data data "2026-01-01T00:00:00" 1700000000
             (init true true true) in
  snd r = (SensorSuccess [("fan", "on")], 200%nat) /\
  actuator_events (database (fst r)) = [auto_event Fan true] /\
  actuator_states (fst r) = {| fan := true; light := false |} /\
  alerts (database (fst r)) = [] /\
  List.length (sensor_readings (database (fst r))) = 1%nat /\
  List.length (thingspeak (fst r)) = 1%nat.
Proof. cbv zeta. repeat split; reflexivity. Qed.

(** A dark and humid reading while the fan runs on a cool room. *)
Example scenario_dark_humid_reading :
  let b := exec (execute_command (VStr "fan") (VStr "ON") "Manual")
             (init true true true) in
  let call := apply_auto_control (VNum 22) (VNum 75) (VNum 120) in
  outcome call b = Ok [("fan", "off"); ("light", "on")] /\
  alerts (database (exec call b)) = [humidity_alert (VNum 75)] /\
  map fst (broker (exec call b)) =
    ["smarthome/actuators/fan"; "smarthome/actuators/fan";
     "smarthome/actuators/light"; "smarthome/alerts"].
Proof. cbv zeta. repeat split; reflexivity. Qed.

(** ** C1: execute is idempotent on the state, not on the event log *)




(** ** C2: automatic light transitions are not logged *)

(** Whatever the reading and the state, [apply_auto_control] leaves the
    light rows of [actuator_events] as they were. *)
Lemma apply_auto_control_light_rows :
  forall (t h l : pyval) (b : SmartHomeBackend),
    events_of "light" (exec (apply_auto_control t h l) b) = events_of "light" b.
Proof.
  intros t h l b. destruct_backend b.
  unfold events_of. unfold_backend. unfold Py.gt, Py.lt. cbn.
  case_ifs; cbn; rewrite ?filter_app; cbn; rewrite ?app_nil_r; reflexivity.
Qed.

(** The fan half of the rule does hold: an evaluation of a numeric
    temperature writes one fan row, flagged automatic, exactly when it
    changes the fan and the store takes the write. *)
Lemma apply_auto_control_fan_rows :
  forall (q : Q) (h l : pyval) (b : SmartHomeBackend),
    let call := apply_auto_control (VNum q) h l in
    let target := Py.Qgtb q config.temperature_high in
    state_of Fan (exec call b) = target /\
    events_of "fan" (exec call b) =
      events_of "fan" b ++
      (if negb (Bool.eqb (state_of Fan b) target) && writable (database b)
       then [auto_event Fan target] else []).
Proof.
  intros q h l b.
  destruct b as [[w rs es als] c sd [f li] lt br ts up].
  unfold events_of. unfold_backend. unfold Py.gt, Py.lt. cbn.
  destruct f, w, (Py.Qgtb q config.temperature_high); cbn;
    case_ifs; cbn; rewrite ?filter_app; cbn; rewrite ?app_nil_r;
    split; reflexivity.
Qed.

(** With the broker disconnected the two copies of the evaluation are the
    same function. *)
Lemma mqtt_client_apply_auto_control_agrees :
  forall (t h l : pyval) (b : SmartHomeBackend),
    mqtt_connected b = false ->
    mqtt_client.apply_auto_control t h l b = apply_auto_control t h l b.
Proof.
  intros t h l b Hc. destruct_backend b. cbn in Hc. subst.
  unfold mqtt_client.apply_auto_control. unfold_backend.
  unfold Py.gt, Py.lt. cbn.
  case_ifs; reflexivity.
Qed.

(** C2 at the failing input: a reading of 100 lux with the light OFF turns
    the light ON and returns the command, yet no ActuatorEvent is written,
    although the store takes writes; the copy in [src/mqtt_client.py] does
    the same. *)
Theorem C2_auto_light_on_writes_no_event :
  let b0 := init true true true in
  let call := apply_auto_control (VNum 20) (VNum 50) (VNum 100) in
  outcome call b0 = Ok [("light", "on")] /\
  state_of Light b0 = false /\
  state_of Light (exec call b0) = true /\
  actuator_events (database (exec call b0)) = [] /\
  actuator_events (database (exec
    (mqtt_client.apply_auto_control (VNum 20) (VNum 50) (VNum 100)) b0)) = [].
Proof. cbv zeta. repeat split; reflexivity. Qed.

(** ** Comparisons *)

Lemma Qgtb_true (a b : Q) : Py.Qgtb a b = true <-> (b < a)%Q.
Proof.
  unfold Py.Qgtb. rewrite negb_true_iff.
  destruct (Qle_bool a b) eqn:E.
  - apply Qle_bool_iff in E. split; [discriminate |].
    intro H. exfalso. exact (Qlt_not_le _ _ H E).
  - split; [| reflexivity]. intros _. apply Qnot_le_lt. intro H.
    apply Qle_bool_iff in H. congruence.
Qed.

Lemma Qgtb_false (a b : Q) : Py.Qgtb a b = false <-> (a <= b)%Q.
Proof.
  unfold Py.Qgtb. rewrite negb_false_iff. apply Qle_bool_iff.
Qed.

Lemma Qltb_true (a b : Q) : Py.Qltb a b = true <-> (a < b)%Q.
Proof. exact (Qgtb_true b a). Qed.

Lemma Qgeb_true (a b : Q) : Py.Qgeb a b = true <-> (b <= a)%Q.
Proof. unfold Py.Qgeb. apply Qle_bool_iff. Qed.

(** ** C3: a failed event write is swallowed and nothing is rolled back *)




(** ** C4: an absent field makes the evaluation raise *)

(** With the temperature absent the evaluation stops at its first
    comparison and touches nothing. *)
Lemma apply_auto_control_absent_temperature :
  forall (h l : pyval) (b : SmartHomeBackend),
    apply_auto_control VNone h l b = (b, Raise TypeError).
Proof. intros h l b. reflexivity. Qed.

(** With the light level absent the fan is decided first, then the
    evaluation raises; the humidity check is not reached. *)
Lemma apply_auto_control_absent_light :
  forall (t : Q) (h : pyval) (b : SmartHomeBackend),
    outcome (apply_auto_control (VNum t) h VNone) b = Raise TypeError /\
    alerts_of "humidity_high" (exec (apply_auto_control (VNum t) h VNone) b) =
      alerts_of "humidity_high" b.
Proof.
  intros t h b. destruct_backend b.
  unfold alerts_of. unfold_backend. unfold Py.gt, Py.lt. cbn.
  case_ifs; cbn; rewrite ?filter_app; cbn; rewrite ?app_nil_r;
    split; reflexivity.
Qed.

(** C4 at the failing input: [POST /sensor] with the body
    [{"humidity": 80, "light": 100}].  The temperature is absent, the
    evaluation raises [TypeError] at the temperature comparison, the handler
    answers 500, and the light check (100 < 300) and the humidity check
    (80 > 70) are not run: the light stays OFF and no alert is written. *)
Theorem C4_absent_temperature_raises :
  let b0 := init true true true in
  let data := VDict [("humidity", VNum 80); ("light", VNum 100)] in
  let b1 := fst (receive_sensor_data data "2026-01-01T00:00:00" 1700000000 b0) in
  outcome (apply_auto_control VNone (VNum 80) (VNum 100)) b0 = Raise TypeError /\
  snd (receive_sensor_data data "2026-01-01T00:00:00" 1700000000 b0)
    = (Error TypeError, 500%nat) /\
  state_of Light b1 = false /\
  alerts (database b1) = [] /\
  published_on "smarthome/alerts" b1 = [].
Proof. cbv zeta. repeat split; reflexivity. Qed.

(** ** C5: humidity alerts are not deduplicated *)




(** ** C6: the critical alert fires on the OFF->ON edge only *)





(** ** C7: the telemetry rate limit *)

(** The limiter part of [update_sensor_data]: the request log and the
    last-fire time after one call. *)
Lemma update_sensor_data_limiter :
  forall (t h l : pyval) (now : string) (c : Q) (b : SmartHomeBackend),
    let b' := exec (update_sensor_data t h l now c) b in
    let due := Py.Qgeb (c - last_thingspeak b) 20 in
    outcome (update_sensor_data t h l now c) b = Ok tt /\
    fired b b' = due /\
    last_thingspeak b' = (if due then c else last_thingspeak b) /\
    (due = false -> thingspeak b' = thingspeak b).
Proof.
  intros t h l now c b. destruct_backend b.
  unfold fired. unfold_backend. cbn.
  destruct (Py.Qgeb _ 20) eqn:Edue; cbn;
    case_ifs; cbn; rewrite ?length_app; cbn;
    rewrite ?Nat.add_1_r, ?Nat.eqb_refl;
    repeat split; intros; try reflexivity; try discriminate;
    match goal with
    | |- (?n =? S ?n)%nat = false => apply Nat.eqb_neq; lia
    end.
Qed.







(** ** C8: remote commands over MQTT *)



(** What the chain leaves open: a JSON object with neither entry gives the
    empty action, and a JSON value that is not an object has no [get], which
    the handler catches and reports. *)
Lemma on_mqtt_message_no_entry :
  forall (json_loads : string -> option pyval) (payload : string)
         (d : list (string * pyval)) (b : SmartHomeBackend),
    json_loads payload = Some (VDict d) ->
    Py.assoc "action" d = None -> Py.assoc "state" d = None ->
    on_mqtt_message json_loads "smarthome/commands/fan" payload b =
      try_except (execute_command (VStr "fan") (VStr EmptyString) "MQTT") b.
Proof.
  intros json_loads payload d b Hl Ha Hs.
  unfold on_mqtt_message, try_except, bind, lift, Py.get. cbn.
  rewrite Hl, Hs, Ha. reflexivity.
Qed.

Lemma on_mqtt_message_not_object :
  forall (json_loads : string -> option pyval) (payload s : string)
         (b : SmartHomeBackend),
    json_loads payload = Some (VStr s) ->
    on_mqtt_message json_loads "smarthome/commands/fan" payload b =
      (b, Ok (Some AttributeError)).
Proof.
  intros json_loads payload s b Hl.
  unfold on_mqtt_message, try_except, bind, lift, Py.get. cbn.
  rewrite Hl. reflexivity.
Qed.

(** ** C9: normalisation of the action *)






(** ** C10: an unknown actuator *)

Lemma eq_str_false (v : pyval) (s : string) :
  v <> VStr s -> Py.eq_str v s = false.
Proof.
  intro H. destruct v; try reflexivity. cbn.
  apply String.eqb_neq. intro E. apply H. now rewrite E.
Qed.

(** C10.  When the actuator is neither ["fan"] nor ["light"],
    [execute_command] changes nothing at all: the backend after the call is
    the backend before it (actuator states, sensor data, the three tables
    and the broker log included).  With a string action the call returns
    normally, and the [/control] handler answers 200 without any effect. *)
Theorem C10_unknown_actuator_is_noop :
  forall (actuator action : pyval) (source : string) (b : SmartHomeBackend),
    actuator <> VStr "fan" -> actuator <> VStr "light" ->
    exec (execute_command actuator action source) b = b /\
    (forall act, action = VStr act ->
       execute_command actuator action source b = (b, Ok tt) /\
       manual_control (VDict [("actuator", actuator); ("action", action)]) b =
         (b, (ControlSuccess actuator action, 200%nat))).
Proof.
  intros actuator action source b Hfan Hlight.
  apply eq_str_false in Hfan. apply eq_str_false in Hlight.
  split.
  - unfold exec, execute_command, bind, lift, ret.
    destruct (Py.lower_method action); cbn; [| reflexivity].
    rewrite Hfan, Hlight. reflexivity.
  - intros act ->.
    unfold manual_control, execute_command, bind, lift, ret. cbn.
    rewrite Hfan, Hlight. split; reflexivity.
Qed.

Lemma C10_unknown_actuator_is_noop_witness :
  let b := init true true true in
  exec (execute_command (VStr "buzzer") (VStr "on") "HTTP") b = b /\
  execute_command (VStr "buzzer") (VStr "on") "HTTP" b = (b, Ok tt).
Proof.
  cbv zeta.
  assert (H1 : VStr "buzzer" <> VStr "fan") by discriminate.
  assert (H2 : VStr "buzzer" <> VStr "light") by discriminate.
  destruct (C10_unknown_actuator_is_noop (VStr "buzzer") (VStr "on") "HTTP"
              (init true true true) H1 H2) as [Hexec Hstr].
  split; [exact Hexec | exact (proj1 (Hstr "on" eq_refl))].
Defined.

(** ** Relations kept by every method

    A preorder on backends that each block of a method respects is
    respected by the method, by the handlers in front of it and by any
    sequence of events. *)

Lemma bind_assoc {A B C} (m : M A) (f : A -> M B) (g : B -> M C)
    (b : SmartHomeBackend) :
  bind (bind m f) g b = bind m (fun a => bind (f a) g) b.
Proof. unfold bind. destruct (m b) as [b1 [a | e]]; reflexivity. Qed.

Lemma bind_ext {A B} (m : M A) (k k' : A -> M B) (b : SmartHomeBackend) :
  (forall a b1, k a b1 = k' a b1) -> bind m k b = bind m k' b.
Proof.
  intro Hk. unfold bind. destruct (m b) as [b1 [a | e]];
    [apply Hk | reflexivity].
Qed.

(** [apply_auto_control] is its three blocks run one after the other. *)
Lemma apply_auto_control_blocks :
  forall (t h l : pyval) (b : SmartHomeBackend),
    apply_auto_control t h l b =
      (commands <- fan_block t [] ;;
       commands <- light_block l commands ;;
       humidity_block h ;;;
       ret commands) b.
Proof.
  intros t h l b. unfold apply_auto_control, fan_block.
  rewrite bind_assoc. apply bind_ext. intros hot b1.
  apply bind_ext. intros c1 b2. unfold light_block.
  rewrite bind_assoc. apply bind_ext. intros dark b3.
  apply bind_ext. intros c2 b4. unfold humidity_block.
  rewrite bind_assoc. reflexivity.
Qed.

Section Relates.

Context {R : SmartHomeBackend -> SmartHomeBackend -> Prop} `{PreOrder _ R}.

Lemma relates_ret {A} (a : A) : relates R (ret a).
Proof. intro b. cbn. reflexivity. Qed.

Lemma relates_lift {A} (r : result A) : relates R (lift r).
Proof. intro b. cbn. reflexivity. Qed.

Lemma relates_bind {A B} (m : M A) (k : A -> M B) :
  relates R m -> (forall a, relates R (k a)) -> relates R (bind m k).
Proof.
  intros Hm Hk b. unfold bind. specialize (Hm b).
  destruct (m b) as [b1 [a | e]]; cbn in *.
  - transitivity b1; [exact Hm | apply Hk].
  - exact Hm.
Qed.

Lemma relates_try_except (m : M unit) :
  relates R m -> relates R (try_except m).
Proof.
  intros Hm b. unfold try_except. specialize (Hm b).
  destruct (m b) as [b1 [a | e]]; exact Hm.
Qed.

Hypothesis fan_block_ok : forall t c, relates R (fan_block t c).
Hypothesis light_block_ok : forall l c, relates R (light_block l c).
Hypothesis humidity_block_ok : forall h, relates R (humidity_block h).
Hypothesis update_ok : forall t h l now c, relates R (update_sensor_data t h l now c).
Hypothesis execute_ok : forall a act s, relates R (execute_command a act s).
Hypothesis connect_ok : forall c b, R b (Self.set_mqtt_connected c b).

Lemma relates_apply_auto_control (t h l : pyval) :
  relates R (apply_auto_control t h l).
Proof.
  intro b. rewrite apply_auto_control_blocks. revert b.
  apply relates_bind; [apply fan_block_ok | intro c1].
  apply relates_bind; [apply light_block_ok | intro c2].
  apply relates_bind; [apply humidity_block_ok | intros _].
  apply relates_ret.
Qed.

Lemma relates_receive_sensor_data (data : pyval) (now : string) (c : Q)
    (b : SmartHomeBackend) :
  R b (fst (receive_sensor_data data now c b)).
Proof.
  unfold receive_sensor_data.
  match goal with
  | |- R b (fst (match ?m b with _ => _ end)) =>
      assert (Hm : relates R m)
  end.
  { apply relates_bind; [apply relates_lift | intro t].
    apply relates_bind; [apply relates_lift | intro h].
    apply relates_bind; [apply relates_lift | intro l].
    apply relates_bind; [apply update_ok | intros _].
    apply relates_apply_auto_control. }
  specialize (Hm b).
  match goal with
  | |- R b (fst (match ?m with _ => _ end)) => destruct m as [b1 [a | e]]
  end; exact Hm.
Qed.

Lemma relates_manual_control (data : pyval) (b : SmartHomeBackend) :
  R b (fst (manual_control data b)).
Proof.
  unfold manual_control.
  match goal with
  | |- R b (fst (match ?m b with _ => _ end)) =>
      assert (Hm : relates R m)
  end.
  { apply relates_bind; [apply relates_lift | intro actuator].
    apply relates_bind; [apply relates_lift | intro act].
    apply relates_bind; [apply execute_ok | intros _].
    apply relates_ret. }
  specialize (Hm b).
  match goal with
  | |- R b (fst (match ?m with _ => _ end)) => destruct m as [b1 [[a1 a2] | e]]
  end; exact Hm.
Qed.

Lemma relates_on_mqtt_message (json_loads : string -> option pyval)
    (topic payload : string) :
  relates R (on_mqtt_message json_loads topic payload).
Proof.
  unfold on_mqtt_message. apply relates_try_except. cbv zeta.
  destruct (Py.contains "fan" topic);
    [| destruct (Py.contains "light" topic); [| apply relates_ret]].
  - apply relates_bind; [apply relates_lift | intro f].
    apply relates_bind; [apply relates_lift | intro act].
    apply execute_ok.
  - apply relates_bind; [apply relates_lift | intro f].
    apply relates_bind; [apply relates_lift | intro act].
    apply execute_ok.
Qed.

Lemma relates_handle (json_loads : string -> option pyval) (e : event)
    (b : SmartHomeBackend) :
  R b (handle json_loads e b).
Proof.
  destruct e as [data now c | data | topic payload | rc | rc]; cbn [handle].
  - apply relates_receive_sensor_data.
  - apply relates_manual_control.
  - apply relates_on_mqtt_message.
  - unfold on_mqtt_connect. destruct (rc =? 0)%Z; apply connect_ok.
  - apply connect_ok.
Qed.

Lemma relates_run (json_loads : string -> option pyval) (es : list event)
    (b : SmartHomeBackend) :
  R b (run json_loads es b).
Proof.
  revert b. induction es as [| e es IH]; intro b; cbn.
  - reflexivity.
  - transitivity (handle json_loads e b);
      [apply relates_handle | apply IH].
Qed.

End Relates.
(** ** Ingestion *)



#[local] Instance same_outside_actuation_preorder :
  PreOrder same_outside_actuation.
Proof.
  split.
  - intro b. repeat split; reflexivity.
  - intros b1 b2 b3 (A1 & A2 & A3 & A4 & A5 & A6 & A7)
      (B1 & B2 & B3 & B4 & B5 & B6 & B7).
    repeat split; etransitivity; eassumption.
Qed.


Lemma get_of_dict (d : list (string * pyval)) (k : string) :
  Py.get (VDict d) k VNone = Ok (dict_get d k).
Proof. unfold Py.get, dict_get. destruct (Py.assoc k d); reflexivity. Qed.



(** The request log and the last-fire time after [update_sensor_data]. *)
Lemma update_sensor_data_telemetry :
  forall (t h l : pyval) (now : string) (c : Q) (b : SmartHomeBackend),
    let b' := exec (update_sensor_data t h l now c) b in
    let due := Py.Qgeb (c - last_thingspeak b) 20 in
    thingspeak b' =
      thingspeak b ++
      (if due
       then [{| api_key := config.THINGSPEAK_API_KEY;
                field1 := t; field2 := h; field3 := l;
                field4 := if fan (actuator_states b) then 1%Z else 0%Z |}]
       else []) /\
    last_thingspeak b' = (if due then c else last_thingspeak b).
Proof.
  intros t h l now c b.
  destruct b as [[w rs es als] cn sd [f li] lt br ts up].
  unfold_backend. cbn.
  destruct w, cn; cbn; case_ifs; rewrite ?app_nil_r; split; reflexivity.
Qed.

(** ** Telemetry during ingestion *)



(** ** The rate limit over any schedule *)

(** X2.  Whatever the clock readings of a series of ingestions (they need not
    even increase), two telemetry requests in a row are at least 20 seconds
    apart on that clock, the first one at least 20 seconds after the
    last-fire time the series started with; one request is logged per
    firing call and none otherwise. *)
Theorem telemetry_requests_are_spaced :
  forall (t h l : pyval) (now : string) (clock : list Q)
         (b : SmartHomeBackend),
    let flags := fst (telemetry_run t h l now clock b) in
    let b' := snd (telemetry_run t h l now clock b) in
    spaced 20 (last_thingspeak b) (fire_times clock flags) /\
    List.length (thingspeak b') =
      (List.length (thingspeak b) + List.length (fire_times clock flags))%nat /\
    List.length flags = List.length clock.
Proof.
  intros t h l now clock. induction clock as [| c rest IH]; intro b.
  - cbn. repeat split. lia.
  - cbn [telemetry_run].
    set (b1 := exec (update_sensor_data t h l now c) b).
    specialize (IH b1). cbv zeta in IH.
    destruct (telemetry_run t h l now rest b1) as [flags b2]. cbn [fst snd] in *.
    destruct IH as (Hsp & Hlen & Hfl).
    destruct (update_sensor_data_limiter t h l now c b) as (_ & Hf & Hl & _).
    destruct (update_sensor_data_telemetry t h l now c b) as [Hts _].
    fold b1 in Hf, Hl, Hts.
    destruct (Py.Qgeb (c - last_thingspeak b) 20) eqn:Hdue.
    + rewrite Hf. cbn [fire_times spaced List.length].
      rewrite Hl in Hsp. apply Qgeb_true in Hdue.
      rewrite Hts, length_app in Hlen. cbn in Hlen.
      repeat split; [exact Hdue | exact Hsp | lia | lia].
    + rewrite Hf. cbn [fire_times List.length].
      rewrite Hl in Hsp. rewrite Hts, app_nil_r in Hlen.
      repeat split; [exact Hsp | exact Hlen | lia].
Qed.


(** ** The history is append-only *)

#[local] Instance extends_preorder {A} : PreOrder (@extends A).
Proof.
  split.
  - intro l. exists []. now rewrite app_nil_r.
  - intros l1 l2 l3 [a1 ->] [a2 ->]. exists (a1 ++ a2). now rewrite app_assoc.
Qed.

#[local] Instance history_extends_preorder : PreOrder history_extends.
Proof.
  split.
  - intro b. repeat split; reflexivity.
  - intros b1 b2 b3 (A1 & A2 & A3 & A4 & A5) (B1 & B2 & B3 & B4 & B5).
    repeat split; etransitivity; eassumption.
Qed.

Ltac solve_extends :=
  first [ exists []; rewrite app_nil_r; reflexivity
        | eexists; rewrite <- ?app_assoc; reflexivity ].

Ltac solve_history :=
  unfold history_extends; cbn; repeat split; solve_extends.

Lemma fan_block_history (t : pyval) (c : list (string * string)) :
  relates history_extends (fan_block t c).
Proof.
  intro b. destruct_backend b. unfold fan_block. unfold_backend.
  unfold Py.gt. cbn. case_ifs; solve_history.
Qed.

Lemma light_block_history (l : pyval) (c : list (string * string)) :
  relates history_extends (light_block l c).
Proof.
  intro b. destruct_backend b. unfold light_block. unfold_backend.
  unfold Py.lt. cbn. case_ifs; solve_history.
Qed.

Lemma humidity_block_history (h : pyval) :
  relates history_extends (humidity_block h).
Proof.
  intro b. destruct_backend b. unfold humidity_block. unfold_backend.
  unfold Py.gt. cbn. case_ifs; solve_history.
Qed.

Lemma update_sensor_data_history (t h l : pyval) (now : string) (c : Q) :
  relates history_extends (update_sensor_data t h l now c).
Proof.
  intro b. destruct_backend b. unfold_backend. cbn. case_ifs; solve_history.
Qed.

Lemma execute_command_history (a act : pyval) (s : string) :
  relates history_extends (execute_command a act s).
Proof.
  intro b. destruct_backend b. unfold_backend. unfold Py.lower_method.
  destruct act; cbn; try solve_history. case_ifs; solve_history.
Qed.

(** X3.  Whatever arrives, in whatever order, the backend only ever adds to
    what it has stored and sent: each of the three tables, the broker log
    and the telemetry log after any sequence of events is the one before
    with rows added at its end. *)
Theorem history_is_append_only :
  forall (json_loads : string -> option pyval) (es : list event)
         (b : SmartHomeBackend),
    history_extends b (run json_loads es b).
Proof.
  intros json_loads es b.
  apply relates_run;
    auto using fan_block_history, light_block_history, humidity_block_history,
      update_sensor_data_history, execute_command_history.
  intros c b0. solve_history.
Qed.

(** ** Kept properties *)

#[local] Instance preserves_preorder (P : SmartHomeBackend -> Prop) :
  PreOrder (preserves P).
Proof. split; unfold preserves; [intros b Hb; exact Hb | intros b1 b2 b3; auto]. Qed.

(** *** Nothing is published while the broker is away *)

Ltac solve_offline :=
  unfold preserves, offline; cbn; intros [Hc Hb];
  try discriminate Hc; subst; cbn; split; reflexivity.

Lemma fan_block_offline (p : list Message) (t : pyval) (c : list (string * string)) :
  relates (preserves (offline p)) (fan_block t c).
Proof.
  intro b. destruct_backend b. unfold fan_block. unfold_backend.
  unfold Py.gt. cbn. case_ifs; solve_offline.
Qed.

Lemma light_block_offline (p : list Message) (l : pyval) (c : list (string * string)) :
  relates (preserves (offline p)) (light_block l c).
Proof.
  intro b. destruct_backend b. unfold light_block. unfold_backend.
  unfold Py.lt. cbn. case_ifs; solve_offline.
Qed.

Lemma humidity_block_offline (p : list Message) (h : pyval) :
  relates (preserves (offline p)) (humidity_block h).
Proof.
  intro b. destruct_backend b. unfold humidity_block. unfold_backend.
  unfold Py.gt. cbn. case_ifs; solve_offline.
Qed.

Lemma update_sensor_data_offline (p : list Message) (t h l : pyval)
    (now : string) (c : Q) :
  relates (preserves (offline p)) (update_sensor_data t h l now c).
Proof.
  intro b. destruct_backend b. unfold_backend. cbn. case_ifs; solve_offline.
Qed.

Lemma execute_command_offline (p : list Message) (a act : pyval) (s : string) :
  relates (preserves (offline p)) (execute_command a act s).
Proof.
  intro b. destruct_backend b. unfold_backend. unfold Py.lower_method.
  destruct act; cbn; try solve_offline. case_ifs; solve_offline.
Qed.

(** X4.  While the broker is disconnected nothing is published, whatever
    arrives over HTTP or is still delivered by the client: until a
    connection succeeds ([on_mqtt_connect] with reason code 0) the broker
    log stays as it was and the backend stays disconnected.  A refused
    connection (reason code other than 0) changes nothing in this. *)
Theorem offline_publishes_nothing :
  forall (json_loads : string -> option pyval) (es : list event)
         (b : SmartHomeBackend),
    mqtt_connected b = false ->
    no_connect es ->
    mqtt_connected (run json_loads es b) = false /\
    broker (run json_loads es b) = broker b.
Proof.
  intros json_loads es. induction es as [| e es IH]; intros b Hoff Hes.
  - split; [exact Hoff | reflexivity].
  - inversion Hes as [| e' es' He Hrest]; subst.
    change (run json_loads (e :: es) b)
      with (run json_loads es (handle json_loads e b)).
    assert (Hstep : preserves (offline (broker b)) b (handle json_loads e b)).
    { destruct e as [data now c | data | topic payload | rc | rc];
        cbn [handle].
      - apply relates_receive_sensor_data;
          auto using fan_block_offline, light_block_offline,
            humidity_block_offline, update_sensor_data_offline.
      - apply relates_manual_control; auto using execute_command_offline.
      - apply (relates_on_mqtt_message (R := preserves (offline (broker b))));
          auto using execute_command_offline.
      - unfold on_mqtt_connect. apply Z.eqb_neq in He. rewrite He.
        intros [Hc Hb]. split; [reflexivity | exact Hb].
      - intros [Hc Hb]. split; [reflexivity | exact Hb]. }
    destruct (Hstep (conj Hoff eq_refl)) as [Hoff' Hb'].
    destruct (IH (handle json_loads e b) Hoff' Hrest) as [H1 H2].
    split; [exact H1 | now rewrite H2].
Qed.

Lemma offline_publishes_nothing_witness :
  let loads := fun s : string => @None pyval in
  let b := on_mqtt_disconnect 7 (init true true true) in
  let es := [PostSensor (VDict [("temperature", VNum 40); ("humidity", VNum 80);
                                ("light", VNum 10)]) "2026-01-01T00:00:00" 1700000000;
             MqttConnected 5;
             PostControl (VDict [("actuator", VStr "fan"); ("action", VStr "off")]);
             MqttMessage "smarthome/commands/light" "off"] in
  broker (run loads es b) = [] /\
  List.length (actuator_events (database (run loads es b))) = 3%nat.
Proof.
  cbv zeta. split; [| reflexivity].
  refine (proj2 (offline_publishes_nothing (fun _ => None)
    [PostSensor (VDict [("temperature", VNum 40); ("humidity", VNum 80);
                        ("light", VNum 10)]) "2026-01-01T00:00:00" 1700000000;
     MqttConnected 5;
     PostControl (VDict [("actuator", VStr "fan"); ("action", VStr "off")]);
     MqttMessage "smarthome/commands/light" "off"]
    (on_mqtt_disconnect 7 (init true true true)) eq_refl _)).
  repeat constructor. discriminate.
Defined.

(** *** What the tables and the broker can hold *)

Lemma lower_ascii_idempotent (c : ascii) :
  Py.lower_ascii (Py.lower_ascii c) = Py.lower_ascii c.
Proof. destruct c as [[] [] [] [] [] [] [] []]; reflexivity. Qed.

Lemma lower_idempotent (s : string) : Py.lower (Py.lower s) = Py.lower s.
Proof.
  induction s as [| c r IH]; cbn; [reflexivity |].
  now rewrite lower_ascii_idempotent, IH.
Qed.

Ltac solve_rows :=
  unfold preserves, event_rows_ok, alert_rows_ok, topics_ok; cbn;
  intro; rewrite ?Forall_app; repeat split; try assumption;
  repeat (apply Forall_cons; [| try apply Forall_nil]).

Ltac solve_event_row :=
  unfold event_row_ok; cbn;
  repeat split; auto using lower_idempotent.

Lemma fan_block_event_rows (t : pyval) (c : list (string * string)) :
  relates (preserves event_rows_ok) (fan_block t c).
Proof.
  intro b. destruct_backend b. unfold fan_block. unfold_backend.
  unfold Py.gt. cbn. case_ifs; solve_rows; solve_event_row.
Qed.

Lemma light_block_event_rows (l : pyval) (c : list (string * string)) :
  relates (preserves event_rows_ok) (light_block l c).
Proof.
  intro b. destruct_backend b. unfold light_block. unfold_backend.
  unfold Py.lt. cbn. case_ifs; solve_rows.
Qed.

Lemma humidity_block_event_rows (h : pyval) :
  relates (preserves event_rows_ok) (humidity_block h).
Proof.
  intro b. destruct_backend b. unfold humidity_block. unfold_backend.
  unfold Py.gt. cbn. case_ifs; solve_rows.
Qed.

Lemma update_sensor_data_event_rows (t h l : pyval) (now : string) (c : Q) :
  relates (preserves event_rows_ok) (update_sensor_data t h l now c).
Proof.
  intro b. destruct_backend b. unfold_backend. cbn. case_ifs; solve_rows.
Qed.

Lemma execute_command_event_rows (a act : pyval) (s : string) :
  relates (preserves event_rows_ok) (execute_command a act s).
Proof.
  intro b. destruct_backend b. unfold_backend. unfold Py.lower_method.
  destruct act; cbn; try solve [solve_rows]. case_ifs; solve_rows; solve_event_row.
Qed.

(** X5.  The event table of a backend that started empty only ever holds fan
    and light rows with no value: a row flagged automatic is a fan row
    saying ["on"] or ["off"] (an automatic light change leaves no row, a
    buzzer never does), and a row of a command keeps the action as it was
    lower-cased, whatever the action was. *)
Theorem event_rows_invariant :
  forall (json_loads : string -> option pyval) (es : list event)
         (w c u : bool),
    Forall event_row_ok
      (actuator_events (database (run json_loads es (init w c u)))).
Proof.
  intros json_loads es w c u.
  refine (relates_run (R := preserves event_rows_ok) _ _ _ _ _ _
            json_loads es (init w c u) _);
    auto using fan_block_event_rows, light_block_event_rows,
      humidity_block_event_rows, update_sensor_data_event_rows,
      execute_command_event_rows.
  - intros cn b0 Hb0. exact Hb0.
  - constructor.
Qed.

Ltac solve_alert_row :=
  unfold alert_row_ok; cbn; split; [reflexivity |];
  eexists; split; [eassumption |];
  first [ left; split; [reflexivity | apply Qgtb_true; assumption]
        | right; split; [reflexivity | apply Qgtb_true; assumption] ].

Lemma fan_block_alert_rows (t : pyval) (c : list (string * string)) :
  relates (preserves alert_rows_ok) (fan_block t c).
Proof.
  intro b. destruct_backend b. unfold fan_block. unfold_backend.
  unfold Py.gt. cbn. case_ifs; solve_rows; solve_alert_row.
Qed.

Lemma light_block_alert_rows (l : pyval) (c : list (string * string)) :
  relates (preserves alert_rows_ok) (light_block l c).
Proof.
  intro b. destruct_backend b. unfold light_block. unfold_backend.
  unfold Py.lt. cbn. case_ifs; solve_rows.
Qed.

Lemma humidity_block_alert_rows (h : pyval) :
  relates (preserves alert_rows_ok) (humidity_block h).
Proof.
  intro b. destruct_backend b. unfold humidity_block. unfold_backend.
  unfold Py.gt. cbn. case_ifs; solve_rows; solve_alert_row.
Qed.

Lemma update_sensor_data_alert_rows (t h l : pyval) (now : string) (c : Q) :
  relates (preserves alert_rows_ok) (update_sensor_data t h l now c).
Proof.
  intro b. destruct_backend b. unfold_backend. cbn. case_ifs; solve_rows.
Qed.

Lemma execute_command_alert_rows (a act : pyval) (s : string) :
  relates (preserves alert_rows_ok) (execute_command a act s).
Proof.
  intro b. destruct_backend b. unfold_backend. unfold Py.lower_method.
  destruct act; cbn; try solve [solve_rows]. case_ifs; solve_rows.
Qed.

(** X6.  Every alert the backend has written is justified by the value stored
    with it: a [temperature_critical] row holds a number above 35, a
    [humidity_high] row a number above 70; there is no other type of
    alert, and no alert is ever acknowledged by the backend itself. *)
Theorem alert_rows_invariant :
  forall (json_loads : string -> option pyval) (es : list event)
         (w c u : bool),
    Forall alert_row_ok (alerts (database (run json_loads es (init w c u)))).
Proof.
  intros json_loads es w c u.
  refine (relates_run (R := preserves alert_rows_ok) _ _ _ _ _ _
            json_loads es (init w c u) _);
    auto using fan_block_alert_rows, light_block_alert_rows,
      humidity_block_alert_rows, update_sensor_data_alert_rows,
      execute_command_alert_rows.
  - intros cn b0 Hb0. exact Hb0.
  - constructor.
Qed.

Ltac solve_topic := cbn; auto 10.

Lemma fan_block_topics (t : pyval) (c : list (string * string)) :
  relates (preserves topics_ok) (fan_block t c).
Proof.
  intro b. destruct_backend b. unfold fan_block. unfold_backend.
  unfold Py.gt. cbn. case_ifs; solve_rows; solve_topic.
Qed.

Lemma light_block_topics (l : pyval) (c : list (string * string)) :
  relates (preserves topics_ok) (light_block l c).
Proof.
  intro b. destruct_backend b. unfold light_block. unfold_backend.
  unfold Py.lt. cbn. case_ifs; solve_rows; solve_topic.
Qed.

Lemma humidity_block_topics (h : pyval) :
  relates (preserves topics_ok) (humidity_block h).
Proof.
  intro b. destruct_backend b. unfold humidity_block. unfold_backend.
  unfold Py.gt. cbn. case_ifs; solve_rows; solve_topic.
Qed.

Lemma update_sensor_data_topics (t h l : pyval) (now : string) (c : Q) :
  relates (preserves topics_ok) (update_sensor_data t h l now c).
Proof.
  intro b. destruct_backend b. unfold_backend. cbn.
  case_ifs; solve_rows; solve_topic.
Qed.

Lemma execute_command_topics (a act : pyval) (s : string) :
  relates (preserves topics_ok) (execute_command a act s).
Proof.
  intro b. destruct_backend b. unfold_backend. unfold Py.lower_method.
  destruct act; cbn; try solve [solve_rows]. case_ifs; solve_rows; solve_topic.
Qed.

(** X7.  The backend publishes on six topics and on no other: the three sensor
    topics, the two actuator topics and the alert topic.  In particular it
    never publishes on the command topics it listens to. *)
Theorem published_topics_invariant :
  forall (json_loads : string -> option pyval) (es : list event)
         (w c u : bool),
    Forall (fun m : Message => In (fst m) topics)
      (broker (run json_loads es (init w c u))) /\
    Forall (fun m : Message => Py.contains "commands" (fst m) = false)
      (broker (run json_loads es (init w c u))).
Proof.
  intros json_loads es w c u.
  assert (Hin : Forall (fun m : Message => In (fst m) topics)
                  (broker (run json_loads es (init w c u)))).
  { refine (relates_run (R := preserves topics_ok) _ _ _ _ _ _
              json_loads es (init w c u) _);
      auto using fan_block_topics, light_block_topics, humidity_block_topics,
        update_sensor_data_topics, execute_command_topics.
    - intros cn b0 Hb0. exact Hb0.
    - constructor. }
  split; [exact Hin |].
  eapply Forall_impl; [| exact Hin].
  intros m Hm. cbn in Hm.
  repeat (destruct Hm as [<- | Hm]; [reflexivity |]). destruct Hm.
Qed.

(** ** Evaluation of a numeric reading *)







(** ** The handlers *)






(** X13.  A body that is not a JSON object (none at all, a list, a number, a
    string) is answered 500 by both posts and changes nothing. *)
Theorem non_object_body_is_rejected :
  forall (data : pyval) (now : string) (c : Q) (b : SmartHomeBackend),
    (forall d, data <> VDict d) ->
    receive_sensor_data data now c b = (b, (Error AttributeError, 500%nat)) /\
    manual_control data b = (b, (Error AttributeError, 500%nat)).
Proof.
  intros data now c b Hd.
  destruct data; try (split; reflexivity).
  exfalso. exact (Hd _ eq_refl).
Qed.

Lemma non_object_body_is_rejected_witness :
  receive_sensor_data VNone "2026-01-01T00:00:00" 1700000000 (init true true true)
    = (init true true true, (Error AttributeError, 500%nat)).
Proof.
  refine (proj1 (non_object_body_is_rejected VNone "2026-01-01T00:00:00"
                   1700000000 (init true true true) _)).
  intros d. discriminate.
Defined.

(** X14.  A [POST /control] whose action is missing or is not a string is
    answered 500 and changes nothing, also when the actuator is a known
    one. *)
Theorem control_without_action_is_rejected :
  forall (d : list (string * pyval)) (b : SmartHomeBackend),
    (forall s, dict_get d "action" <> VStr s) ->
    manual_control (VDict d) b = (b, (Error AttributeError, 500%nat)).
Proof.
  intros d b Hact.
  unfold manual_control, bind, lift. rewrite !get_of_dict.
  unfold execute_command, bind, lift, Py.lower_method.
  destruct (dict_get d "action"); try reflexivity.
  exfalso. exact (Hact _ eq_refl).
Qed.

Lemma control_without_action_is_rejected_witness :
  manual_control (VDict [("actuator", VStr "fan")]) (init true true true)
    = (init true true true, (Error AttributeError, 500%nat)).
Proof.
  apply (control_without_action_is_rejected [("actuator", VStr "fan")]).
  intros s. discriminate.
Defined.

(** ** Commands over the two transports *)

(** X15.  In a message whose JSON object has an ["action"] entry that is not a
    string (for instance [null]), the ["state"] entry is not consulted:
    the handler catches [AttributeError] and the backend is unchanged. *)
Theorem mqtt_action_entry_shadows_state :
  forall (json_loads : string -> option pyval) (topic payload : string)
         (d : list (string * pyval)) (v : pyval) (b : SmartHomeBackend),
    Py.contains "fan" topic = true \/ Py.contains "light" topic = true ->
    json_loads payload = Some (VDict d) ->
    Py.assoc "action" d = Some v ->
    (forall s, v <> VStr s) ->
    on_mqtt_message json_loads topic payload b = (b, Ok (Some AttributeError)).
Proof.
  intros json_loads topic payload d v b Htopic Hload Hact Hv.
  assert (Hexec : forall a, execute_command a v "MQTT" b = (b, Raise AttributeError)).
  { intro a. unfold execute_command, bind, lift, Py.lower_method.
    destruct v; try reflexivity. exfalso. exact (Hv _ eq_refl). }
  unfold on_mqtt_message, try_except, bind, lift, Py.get.
  rewrite Hload, Hact.
  destruct (Py.contains "fan" topic).
  - destruct (Py.assoc "state" d); rewrite Hexec; reflexivity.
  - destruct Htopic as [Hf | Hl]; [discriminate |]. rewrite Hl.
    destruct (Py.assoc "state" d); rewrite Hexec; reflexivity.
Qed.

Lemma mqtt_action_entry_shadows_state_witness :
  let loads := fun s : string =>
    if String.eqb s "J"
    then Some (VDict [("action", VNone); ("state", VStr "on")]) else None in
  on_mqtt_message loads "smarthome/commands/fan" "J" (init true true true)
    = (init true true true, Ok (Some AttributeError)).
Proof.
  cbv zeta.
  refine (mqtt_action_entry_shadows_state _ "smarthome/commands/fan" "J"
            [("action", VNone); ("state", VStr "on")] VNone
            (init true true true) _ eq_refl eq_refl _).
  - left. reflexivity.
  - intros s. discriminate.
Defined.

(** The source of a command only shows in the message published. *)
Lemma execute_command_source :
  forall (a act : pyval) (s1 s2 : string) (b : SmartHomeBackend),
    let b1 := exec (execute_command a act s1) b in
    let b2 := exec (execute_command a act s2) b in
    outcome (execute_command a act s1) b = outcome (execute_command a act s2) b /\
    database b1 = database b2 /\
    actuator_states b1 = actuator_states b2 /\
    map fst (broker b1) = map fst (broker b2).
Proof.
  intros a act s1 s2 b. destruct_backend b.
  unfold_backend. unfold Py.lower_method.
  destruct act; cbn; try (repeat split; reflexivity).
  case_ifs; rewrite ?map_app; cbn; repeat split; reflexivity.
Qed.

(** X16.  A command has the same effect whether it comes as an MQTT message with
    a JSON object or as a [POST /control]: the same actuator state, the
    same tables, a message on the same topic.  Only the source named in
    the published message differs. *)
Theorem mqtt_and_http_commands_agree :
  forall (json_loads : string -> option pyval) (topic payload : string)
         (d : list (string * pyval)) (a : Actuator) (act : string)
         (b : SmartHomeBackend),
    (a = Fan /\ Py.contains "fan" topic = true) \/
    (a = Light /\ Py.contains "fan" topic = false /\
     Py.contains "light" topic = true) ->
    json_loads payload = Some (VDict d) ->
    Py.assoc "action" d = Some (VStr act) ->
    let bm := fst (on_mqtt_message json_loads topic payload b) in
    let bh := fst (manual_control
                     (VDict [("actuator", VStr (name a)); ("action", VStr act)]) b) in
    database bm = database bh /\
    actuator_states bm = actuator_states bh /\
    map fst (broker bm) = map fst (broker bh) /\
    get_commands bm = get_commands bh.
Proof.
  intros json_loads topic payload d a act b Htopic Hload Hact bm bh.
  assert (Hm : bm = exec (execute_command (VStr (name a)) (VStr act) "MQTT") b).
  { subst bm. unfold on_mqtt_message, try_except, bind, lift, Py.get, exec.
    rewrite Hload, Hact.
    destruct Htopic as [[-> Hf] | (-> & Hf & Hl)]; rewrite Hf; [| rewrite Hl];
      cbn [name];
      (destruct (Py.assoc "state" d);
       match goal with
       | |- fst (match ?x with _ => _ end) = _ => destruct x as [b1 [u | e]]
       end; reflexivity). }
  assert (Hh : bh = exec (execute_command (VStr (name a)) (VStr act) "HTTP") b).
  { subst bh. unfold manual_control, bind, lift, exec.
    rewrite !get_of_dict.
    replace (dict_get [("actuator", VStr (name a)); ("action", VStr act)] "actuator")
      with (VStr (name a)) by reflexivity.
    replace (dict_get [("actuator", VStr (name a)); ("action", VStr act)] "action")
      with (VStr act) by reflexivity.
    destruct (execute_command (VStr (name a)) (VStr act) "HTTP" b)
      as [b1 [u | e]]; reflexivity. }
  rewrite Hm, Hh.
  destruct (execute_command_source (VStr (name a)) (VStr act) "MQTT" "HTTP" b)
    as (_ & Hdb & Hst & Hbr).
  unfold get_commands. rewrite Hdb, Hst, Hbr. repeat split; reflexivity.
Qed.

Lemma mqtt_and_http_commands_agree_witness :
  let loads := fun s : string =>
    if String.eqb s "J" then Some (VDict [("action", VStr "ON")]) else None in
  get_commands (fst (on_mqtt_message loads "smarthome/commands/light" "J"
                       (init true true true)))
  = get_commands (fst (manual_control
      (VDict [("actuator", VStr "light"); ("action", VStr "ON")])
      (init true true true))).
Proof.
  cbv zeta.
  refine (proj2 (proj2 (proj2 (mqtt_and_http_commands_agree _
    "smarthome/commands/light" "J" [("action", VStr "ON")] Light "ON"
    (init true true true) _ eq_refl eq_refl)))).
  right. repeat split; reflexivity.
Defined.




(** ** src/sensors.py: the threshold check *)

Lemma Qeq_bool_false (a b : Q) : Qeq_bool a b = false <-> ~ (a == b)%Q.
Proof.
  split.
  - intros E H. apply Qeq_bool_iff in H. congruence.
  - intro H. destruct (Qeq_bool a b) eqn:E; [| reflexivity].
    apply Qeq_bool_iff in E. contradiction.
Qed.

Ltac q_facts :=
  repeat match goal with
         | H : Py.Qgtb _ _ = true |- _ => apply Qgtb_true in H
         | H : Py.Qgtb _ _ = false |- _ => apply Qgtb_false in H
         | H : Py.Qltb _ _ = true |- _ => apply Qltb_true in H
         | H : Py.Qltb _ _ = false |- _ => apply Qgtb_false in H
         | H : Qeq_bool _ _ = true |- _ => apply Qeq_bool_iff in H
         | H : Qeq_bool _ _ = false |- _ => apply Qeq_bool_false in H
         end;
  unfold config.temperature_high, config.temperature_critical,
    config.temperature_low, config.humidity_high, config.humidity_critical,
    config.light_threshold in *.

(** X17.  The check is silent on a numeric reading exactly when the temperature
    is between 18 and 28 or is 0, the humidity is at most 70 and the light
    level is at least 300.  A temperature of exactly 0 counts as no
    temperature at all, so it raises no low-temperature alert, while a
    light level of 0 does raise the low-light alert. *)
Theorem check_thresholds_silent :
  forall (d : list (string * pyval)) (t h l : Q),
    dict_get d "temperature" = VNum t ->
    dict_get d "humidity" = VNum h ->
    dict_get d "light_level" = VNum l ->
    (exists alerts, sensors.check_thresholds (VDict d) = Ok alerts) /\
    (sensors.check_thresholds (VDict d) = Ok [] <->
       ((t == 0 \/ (18 <= t /\ t <= 28)) /\ h <= 70 /\ 300 <= l)%Q).
Proof.
  intros d t h l Ht Hh Hl.
  unfold sensors.check_thresholds, sensors.rbind.
  rewrite !get_of_dict, Ht, Hh, Hl.
  unfold Py.gt, Py.lt. cbn.
  destruct (Qeq_bool t 0) eqn:Et0, (Qeq_bool h 0) eqn:Eh0; cbn;
    case_ifs; cbn; (split; [eexists; reflexivity |]);
    q_facts; (split; [intro Hnil; try discriminate Hnil | intro Hq]);
    try (repeat split; try lra; auto; right; split; lra);
    try reflexivity; try (exfalso; lra);
    try (exfalso; destruct Hq as ([Hz | [Hlo Hhi]] & Hhum & Hli); lra).
Qed.

Lemma check_thresholds_silent_witness :
  sensors.check_thresholds
    (VDict [("temperature", VNum 0); ("humidity", VNum 55);
            ("light_level", VNum 800)]) = Ok [].
Proof.
  apply (proj2 (check_thresholds_silent
    [("temperature", VNum 0); ("humidity", VNum 55); ("light_level", VNum 800)]
    0 55 800 eq_refl eq_refl eq_refl)).
  repeat split; try (left; reflexivity); vm_compute; discriminate.
Defined.

Ltac in_types :=
  cbn;
  split;
  [ let H := fresh in
    intro H;
    repeat (destruct H as [H | H]; [try discriminate H |]);
    try contradiction; try lra; try (split; lra)
  | let H := fresh in
    intro H;
    first [ exfalso; lra
          | exfalso; destruct H; lra
          | left; reflexivity
          | right; left; reflexivity
          | right; right; left; reflexivity ] ].

(** X18.  The threshold check skips what is absent and goes on: with no
    temperature in the reading it does not raise, it reports no
    temperature alert, and the humidity and light checks still run. *)
Theorem check_thresholds_skips_absent_temperature :
  forall (d : list (string * pyval)) (h l : Q),
    dict_get d "temperature" = VNone ->
    dict_get d "humidity" = VNum h ->
    dict_get d "light_level" = VNum l ->
    exists alerts,
      sensors.check_thresholds (VDict d) = Ok alerts /\
      (In "humidity_critical" (map sensors.ta_type alerts) <-> (80 < h)%Q) /\
      (In "humidity_high" (map sensors.ta_type alerts) <-> (70 < h /\ h <= 80)%Q) /\
      (In "low_light" (map sensors.ta_type alerts) <-> (l < 300)%Q) /\
      (List.length alerts <= 2)%nat.
Proof.
  intros d h l Ht Hh Hl.
  unfold sensors.check_thresholds, sensors.rbind.
  rewrite !get_of_dict, Ht, Hh, Hl.
  unfold Py.gt, Py.lt. cbn.
  destruct (Qeq_bool h 0) eqn:Eh0; cbn; case_ifs; cbn;
    eexists; (split; [reflexivity |]); q_facts;
    (split; [in_types | split; [in_types | split; [in_types | cbn; lia]]]).
Qed.

Lemma check_thresholds_skips_absent_temperature_witness :
  exists alerts,
    sensors.check_thresholds
      (VDict [("humidity", VNum 85); ("light_level", VNum 100)]) = Ok alerts /\
    map sensors.ta_type alerts = ["humidity_critical"; "low_light"].
Proof.
  destruct (check_thresholds_skips_absent_temperature
              [("humidity", VNum 85); ("light_level", VNum 100)] 85 100
              eq_refl eq_refl eq_refl) as (alerts & Hok & _).
  exists alerts. split; [exact Hok |].
  cbv in Hok. injection Hok as <-. reflexivity.
Defined.

(** X19.  [is_dark] answers [True] exactly when the sensor gave a level other
    than 0 that is below the threshold in force, where a threshold of 0
    (like none at all) stands for the configured 300.  So complete
    darkness, a level of exactly 0, is never reported as dark. *)
Theorem is_dark_characterised :
  forall (threshold current_level : option Q),
    let limit :=
      match threshold with
      | Some t => if Qeq_bool t 0 then 300%Q else t
      | None => 300%Q
      end in
    sensors.is_dark threshold current_level = true <->
    exists level, current_level = Some level /\ ~ (level == 0)%Q /\
                  (level < limit)%Q.
Proof.
  intros threshold current_level limit. subst limit.
  unfold sensors.is_dark, config.light_threshold.
  destruct current_level as [level |].
  - destruct (Qeq_bool level 0) eqn:E0.
    + split; [discriminate |]. intros (v & Hv & Hnz & _).
      injection Hv as <-. apply Qeq_bool_iff in E0. contradiction.
    + apply Qeq_bool_false in E0. rewrite Qltb_true. split.
      * intro Hlt. exists level. auto.
      * intros (v & Hv & _ & Hlt). injection Hv as <-. exact Hlt.
  - split; [discriminate |]. intros (v & Hv & _). discriminate Hv.
Qed.

Lemma is_dark_characterised_witness :
  sensors.is_dark None (Some 0) = false /\
  sensors.is_dark (Some 0) (Some 120) = true.
Proof.
  split.
  - destruct (sensors.is_dark None (Some 0)) eqn:E; [| reflexivity].
    apply (is_dark_characterised None (Some 0)) in E.
    destruct E as (v & Hv & Hnz & _). injection Hv as <-.
    exfalso. apply Hnz. reflexivity.
  - apply (is_dark_characterised (Some 0) (Some 120)).
    exists 120. repeat split. intro H. vm_compute in H. discriminate H.
Defined.

(** ** src/actuators.py *)

(** X20.  The colour name tells the colour: two LED states with the same name
    are the same state, and [set_color] returns the name of the state it
    has just set, whatever the state before. *)
Theorem color_name_identifies_state :
  forall (l1 l2 : actuators.LEDController),
    (actuators._get_color_name l1 = actuators._get_color_name l2 -> l1 = l2) /\
    (forall r g b,
       snd (actuators.set_color r g b l1) =
         actuators._get_color_name (fst (actuators.set_color r g b l2))).
Proof.
  intros [r1 g1 b1] [r2 g2 b2]. split.
  - destruct r1, g1, b1, r2, g2, b2; cbn; intro H;
      first [reflexivity | discriminate H].
  - intros r g b. reflexivity.
Qed.

Lemma color_name_identifies_state_witness :
  {| actuators.state_red := true; actuators.state_green := true;
     actuators.state_blue := false |}
  = fst (actuators.led_yellow
           {| actuators.state_red := false; actuators.state_green := false;
              actuators.state_blue := false |}).
Proof.
  apply (proj1 (color_name_identifies_state
    {| actuators.state_red := true; actuators.state_green := true;
       actuators.state_blue := false |}
    (fst (actuators.led_yellow
           {| actuators.state_red := false; actuators.state_green := false;
              actuators.state_blue := false |})))).
  reflexivity.
Defined.

Ltac unfold_actuators :=
  unfold actuators.auto_control, actuators.abind, actuators.alift,
    actuators.aret, actuators.with_led, actuators.with_relay,
    actuators.with_buzzer, actuators.relay_state, actuators.relay_on,
    actuators.relay_off, actuators.led_red, actuators.led_green,
    actuators.led_white, actuators.led_off, actuators.set_color,
    config.auto_mode, Py.gt, Py.lt in *.

(** X21.  The fan rule of [ActuatorManager.auto_control], on a reading with a
    numeric temperature and no light level.  A temperature of exactly 0
    counts as absent: nothing happens, a running fan keeps running.
    Otherwise the relay ends ON exactly when the temperature is above 28,
    an action is reported only when the relay changed, and the buzzer
    sounds its three beeps only when the relay was switched on by a
    temperature above 35. *)
Theorem auto_control_fan_rule :
  forall (d : list (string * pyval)) (q : Q) (m : actuators.ActuatorManager),
    dict_get d "temperature" = VNum q ->
    dict_get d "light_level" = VNone ->
    let r := actuators.auto_control (VDict d) m in
    let hot := Py.Qgtb q config.temperature_high in
    ((q == 0)%Q -> r = (m, Ok [])) /\
    (~ (q == 0)%Q ->
       actuators.relay (fst r) = hot /\
       snd r = Ok (if Bool.eqb (actuators.relay m) hot then []
                   else [if hot then "fan_on" else "fan_off"]) /\
       actuators.buzzer (fst r) =
         (if negb (actuators.relay m) && Py.Qgtb q config.temperature_critical
          then actuators.buzzer m ++ [2 # 10; 2 # 10; 2 # 10]
          else actuators.buzzer m)).
Proof.
  intros d q [ld rl bz] Ht Hl r hot. subst r hot.
  unfold actuators.auto_control at 1 2 3 4.
  rewrite !get_of_dict, Ht, Hl. unfold_actuators. cbn. split.
  - intro Hz. apply Qeq_bool_iff in Hz. rewrite Hz. cbn.
    destruct ld. reflexivity.
  - intro Hnz. apply Qeq_bool_false in Hnz. rewrite Hnz. cbn.
    destruct (Py.Qgtb q config.temperature_high) eqn:Ehot.
    + destruct rl; cbn; [repeat split; reflexivity |].
      destruct (Py.Qgtb q config.temperature_critical); cbn;
        rewrite <- ?app_assoc; repeat split; reflexivity.
    + assert (Ec : Py.Qgtb q config.temperature_critical = false).
      { apply Qgtb_false. apply Qgtb_false in Ehot.
        unfold config.temperature_high, config.temperature_critical in *. lra. }
      rewrite Ec. destruct rl; cbn; repeat split; reflexivity.
Qed.

Lemma auto_control_fan_rule_witness :
  let m := {| actuators.led := {| actuators.state_red := true;
                                   actuators.state_green := false;
                                   actuators.state_blue := false |};
              actuators.relay := true; actuators.buzzer := [] |} in
  actuators.auto_control (VDict [("temperature", VNum 0)]) m = (m, Ok []) /\
  actuators.relay (fst (actuators.auto_control
                          (VDict [("temperature", VNum 5)]) m)) = false.
Proof.
  cbv zeta. split.
  - apply (auto_control_fan_rule [("temperature", VNum 0)] 0 _ eq_refl eq_refl).
    reflexivity.
  - apply (auto_control_fan_rule [("temperature", VNum 5)] 5 _ eq_refl eq_refl).
    intro H. vm_compute in H. discriminate H.
Defined.

(** X22.  The light rule of [ActuatorManager.auto_control], on a reading with a
    light level and no temperature.  Below 300 the LED is set white and
    ["light_on"] is reported on every call, changed or not; from 300 to
    400 nothing happens; above 400 the LED is switched off and
    ["light_off"] reported only while the fan is off: with the fan on the
    LED keeps the colour it has. *)
Theorem auto_control_light_rule :
  forall (d : list (string * pyval)) (l : Q) (m : actuators.ActuatorManager),
    dict_get d "temperature" = VNone ->
    dict_get d "light_level" = VNum l ->
    let r := actuators.auto_control (VDict d) m in
    ((l < 300)%Q ->
       r = ({| actuators.led := fst (actuators.led_white (actuators.led m));
               actuators.relay := actuators.relay m;
               actuators.buzzer := actuators.buzzer m |}, Ok ["light_on"])) /\
    ((300 <= l /\ l <= 400)%Q -> r = (m, Ok [])) /\
    ((400 < l)%Q ->
       r = if actuators.relay m then (m, Ok [])
           else ({| actuators.led := fst (actuators.led_off (actuators.led m));
                    actuators.relay := actuators.relay m;
                    actuators.buzzer := actuators.buzzer m |}, Ok ["light_off"])).
Proof.
  intros d l [ld rl bz] Ht Hl r. subst r.
  unfold actuators.auto_control.
  rewrite !get_of_dict, Ht, Hl. unfold_actuators. cbn.
  assert (H400 : (config.light_threshold + 100 == 400)%Q) by reflexivity.
  destruct (Py.Qltb l config.light_threshold) eqn:Edark;
    [| destruct (Py.Qgtb l (config.light_threshold + 100)) eqn:Ebright];
    q_facts; cbn; (split; [| split]); intro Hq;
    try (exfalso; lra); try (exfalso; destruct Hq; lra);
    try reflexivity.
  destruct rl; reflexivity.
Qed.

Lemma auto_control_light_rule_witness :
  let m := {| actuators.led := {| actuators.state_red := true;
                                   actuators.state_green := false;
                                   actuators.state_blue := false |};
              actuators.relay := true; actuators.buzzer := [] |} in
  actuators.auto_control (VDict [("light_level", VNum 900)]) m = (m, Ok []) /\
  actuators.auto_control (VDict [("light_level", VNum 350)]) m = (m, Ok []) /\
  snd (actuators.auto_control (VDict [("light_level", VNum 0)]) m)
    = Ok ["light_on"].
Proof.
  cbv zeta. split; [| split].
  - refine (proj2 (proj2 (auto_control_light_rule
      [("light_level", VNum 900)] 900 _ eq_refl eq_refl)) _). reflexivity.
  - refine (proj1 (proj2 (auto_control_light_rule
      [("light_level", VNum 350)] 350 _ eq_refl eq_refl)) _).
    split; vm_compute; discriminate.
  - rewrite (proj1 (auto_control_light_rule [("light_level", VNum 0)] 0 _
                      eq_refl eq_refl)); reflexivity.
Defined.

(** X23.  With both values present and the room dark, the light rule has the
    last word on the LED: it ends white also when the fan rule has just
    set it red or green, and both actions are reported, the fan first. *)
Theorem auto_control_dark_overrides_heat :
  forall (d : list (string * pyval)) (q l : Q) (m : actuators.ActuatorManager),
    dict_get d "temperature" = VNum q ->
    dict_get d "light_level" = VNum l ->
    (l < 300)%Q ->
    let r := actuators.auto_control (VDict d) m in
    actuators.led (fst r) = fst (actuators.led_white (actuators.led m)) /\
    exists fan_actions,
      snd r = Ok (fan_actions ++ ["light_on"]) /\
      (fan_actions = [] \/ fan_actions = ["fan_on"] \/ fan_actions = ["fan_off"]).
Proof.
  intros d q l [ld rl bz] Ht Hl Hdark r. subst r.
  assert (Hd : Py.Qltb l config.light_threshold = true)
    by (apply Qltb_true; exact Hdark).
  unfold actuators.auto_control.
  rewrite !get_of_dict, Ht, Hl. unfold_actuators. cbn. rewrite Hd.
  destruct (Qeq_bool q 0), (Py.Qgtb q config.temperature_high), rl; cbn;
    try (destruct (Py.Qgtb q config.temperature_critical); cbn);
    (split; [reflexivity |]);
    first [ exists []; split; [reflexivity | auto]
          | exists ["fan_on"]; split; [reflexivity | auto]
          | exists ["fan_off"]; split; [reflexivity | auto] ].
Qed.

Lemma auto_control_dark_overrides_heat_witness :
  let m := {| actuators.led := {| actuators.state_red := false;
                                   actuators.state_green := true;
                                   actuators.state_blue := false |};
              actuators.relay := false; actuators.buzzer := [] |} in
  actuators._get_color_name
    (actuators.led (fst (actuators.auto_control
       (VDict [("temperature", VNum 40); ("light_level", VNum 100)]) m)))
  = "Blanco".
Proof.
  cbv zeta.
  rewrite (proj1 (auto_control_dark_overrides_heat
    [("temperature", VNum 40); ("light_level", VNum 100)] 40 100 _
    eq_refl eq_refl eq_refl)).
  reflexivity.
Defined.

(** X24.  Toggling the fan by command twice brings the manager back where it
    was, and each answer names the state the relay has just taken. *)
Theorem manual_toggle_twice :
  forall (command : list (string * pyval)) (m : actuators.ActuatorManager),
    Py.assoc "actuator" command = Some (VStr "fan") ->
    Py.assoc "action" command = Some (VStr "toggle") ->
    let r1 := actuators.manual_control command m in
    let r2 := actuators.manual_control command (fst r1) in
    snd r1 = inr (Some (if actuators.relay m then "fan_off" else "fan_on")) /\
    actuators.relay (fst r1) = negb (actuators.relay m) /\
    snd r2 = inr (Some (if actuators.relay m then "fan_on" else "fan_off")) /\
    fst r2 = m.
Proof.
  intros command [ld rl bz] Ha Hact.
  unfold actuators.manual_control. rewrite Ha, Hact. cbn.
  destruct rl; cbn; repeat split; reflexivity.
Qed.

Lemma manual_toggle_twice_witness :
  let m := {| actuators.led := {| actuators.state_red := false;
                                   actuators.state_green := false;
                                   actuators.state_blue := false |};
              actuators.relay := false; actuators.buzzer := [] |} in
  let c := [("actuator", VStr "fan"); ("action", VStr "toggle")] in
  fst (actuators.manual_control c (fst (actuators.manual_control c m))) = m.
Proof.
  cbv zeta.
  exact (proj2 (proj2 (proj2 (manual_toggle_twice
    [("actuator", VStr "fan"); ("action", VStr "toggle")] _ eq_refl eq_refl)))).
Defined.

(** X25.  What [ActuatorManager.manual_control] does with a command it does not
    know.  A command with no actuator raises [KeyError]; a known actuator
    with no action raises [KeyError] too; an unknown actuator is answered
    [None] without the action being looked at; and an action the actuator
    does not have, among them the upper-case spellings, is answered [None].
    In all these cases nothing is switched. *)
Theorem manual_control_rejects :
  forall (command : list (string * pyval)) (m : actuators.ActuatorManager),
    (Py.assoc "actuator" command = None ->
       actuators.manual_control command m =
         (m, inl (actuators.key_error "actuator"))) /\
    (forall a, Py.assoc "actuator" command = Some (VStr a) ->
       a = "fan" \/ a = "light" \/ a = "buzzer" ->
       Py.assoc "action" command = None ->
       actuators.manual_control command m =
         (m, inl (actuators.key_error "action"))) /\
    (forall v, Py.assoc "actuator" command = Some v ->
       v <> VStr "fan" -> v <> VStr "light" -> v <> VStr "buzzer" ->
       actuators.manual_control command m = (m, inr None)) /\
    (forall a v, Py.assoc "actuator" command = Some (VStr a) ->
       Py.assoc "action" command = Some v ->
       (a = "fan" -> v <> VStr "on" /\ v <> VStr "off" /\ v <> VStr "toggle") ->
       (a = "light" -> v <> VStr "on" /\ v <> VStr "off") ->
       (a = "buzzer" -> v <> VStr "beep" /\ v <> VStr "alert") ->
       actuators.manual_control command m = (m, inr None)).
Proof.
  intros command m. unfold actuators.manual_control.
  split; [| split; [| split]].
  - intros ->. reflexivity.
  - intros a -> [-> | [-> | ->]] ->; reflexivity.
  - intros v -> Hf Hl Hb.
    rewrite (eq_str_false _ _ Hf), (eq_str_false _ _ Hl), (eq_str_false _ _ Hb).
    reflexivity.
  - intros a v -> -> Hfan Hlight Hbuzzer.
    change (Py.eq_str (VStr a) "fan") with (String.eqb a "fan").
    change (Py.eq_str (VStr a) "light") with (String.eqb a "light").
    change (Py.eq_str (VStr a) "buzzer") with (String.eqb a "buzzer").
    destruct (String.eqb a "fan") eqn:Ef.
    { apply String.eqb_eq in Ef. destruct (Hfan Ef) as (H1 & H2 & H3).
      rewrite (eq_str_false _ _ H1), (eq_str_false _ _ H2), (eq_str_false _ _ H3).
      reflexivity. }
    destruct (String.eqb a "light") eqn:El.
    { apply String.eqb_eq in El. destruct (Hlight El) as (H1 & H2).
      rewrite (eq_str_false _ _ H1), (eq_str_false _ _ H2). reflexivity. }
    destruct (String.eqb a "buzzer") eqn:Eb; [| reflexivity].
    apply String.eqb_eq in Eb. destruct (Hbuzzer Eb) as (H1 & H2).
    rewrite (eq_str_false _ _ H1), (eq_str_false _ _ H2). reflexivity.
Qed.

Lemma manual_control_rejects_witness :
  let m := {| actuators.led := {| actuators.state_red := false;
                                   actuators.state_green := false;
                                   actuators.state_blue := false |};
              actuators.relay := false; actuators.buzzer := [] |} in
  actuators.manual_control [("action", VStr "on")] m
    = (m, inl (actuators.key_error "actuator")) /\
  actuators.manual_control [("actuator", VStr "light")] m
    = (m, inl (actuators.key_error "action")) /\
  actuators.manual_control [("actuator", VStr "display")] m = (m, inr None) /\
  actuators.manual_control [("actuator", VStr "fan"); ("action", VStr "ON")] m
    = (m, inr None).
Proof.
  cbv zeta. split; [| split; [| split]].
  - exact (proj1 (manual_control_rejects [("action", VStr "on")] _) eq_refl).
  - refine (proj1 (proj2 (manual_control_rejects [("actuator", VStr "light")] _))
             "light" eq_refl _ eq_refl). right. left. reflexivity.
  - refine (proj1 (proj2 (proj2 (manual_control_rejects
             [("actuator", VStr "display")] _)))
             (VStr "display") eq_refl _ _ _); discriminate.
  - refine (proj2 (proj2 (proj2 (manual_control_rejects
             [("actuator", VStr "fan"); ("action", VStr "ON")] _)))
             "fan" (VStr "ON") eq_refl eq_refl _ _ _).
    + intros _. repeat split; discriminate.
    + discriminate.
    + discriminate.
Defined.

(** ** src/database.py: acknowledging an alert *)







